(** * Polyhedron volume by signed tetrahedra (volume-calculator.c)

    A shallow embedding of volume-calculator.c: [tetrahedron_volume],
    [calculate_volume], the hexahedron and prism wrappers, the six
    self-tests and [main].

    Arithmetic model.  A C [double] is an IEEE 754 binary64 value and every
    operator of the source rounds once, to nearest with ties to even (no
    fused multiply-add, no extended intermediate precision).  The values and
    the operations are those of the Standard Library's [SpecFloat] at
    precision 53 and maximal exponent 1024; NaN carries no payload there.

    Memory model.  An array passed by pointer is the list of its elements;
    reading outside it is undefined behaviour in C and is [None] here, and so
    is a signed overflow of an [int] expression. *)

From Stdlib Require Import ZArith List Bool Lia QArith Qabs.
From Stdlib Require Import Floats.SpecFloat.
Import ListNotations.

Local Open Scope Z_scope.

(** ** Binary64 arithmetic *)

Module Double.

Definition prec : Z := 53.
Definition emax : Z := 1024.

Definition double := spec_float.

Definition add : double -> double -> double := SFadd prec emax.
Definition sub : double -> double -> double := SFsub prec emax.
Definition mul : double -> double -> double := SFmul prec emax.
Definition div : double -> double -> double := SFdiv prec emax.
Definition opp : double -> double := SFopp.
Definition abs : double -> double := SFabs.
Definition eqb : double -> double -> bool := SFeqb.
Definition ltb : double -> double -> bool := SFltb.

(** The conversion of an integer constant to [double]. *)
Definition of_Z (n : Z) : double := binary_normalize prec emax n 0 false.

(** The constant [0.0], which is also the all-zero-bits pattern that
    [memset(_, 0, _)] writes. *)
Definition zero : double := S754_zero false.

(** A member of the binary64 format. *)
Definition is_double (x : double) : bool := valid_binary prec emax x.

Definition is_finite (x : double) : bool :=
  match x with
  | S754_zero _ | S754_finite _ _ _ => true
  | S754_infinity _ | S754_nan => false
  end.

Definition is_zero (x : double) : bool :=
  match x with
  | S754_zero _ => true
  | _ => false
  end.

Definition is_nan (x : double) : bool :=
  match x with
  | S754_nan => true
  | _ => false
  end.

(** The rational number a finite double stands for. *)
Definition to_Q (x : double) : option Q :=
  match x with
  | S754_zero _ => Some 0%Q
  | S754_finite s m e =>
      let n := if s then Z.neg m else Z.pos m in
      Some (match e with
            | Z0 => inject_Z n
            | Zpos p => inject_Z (n * 2 ^ Zpos p)
            | Zneg p => Qmake n (2 ^ p)
            end)
  | S754_infinity _ | S754_nan => None
  end.

(** [x] is finite and within [eps] of the rational [q]. *)
Definition near (x : double) (q eps : Q) : bool :=
  match to_Q x with
  | Some r => match Qcompare (Qabs (r - q)) eps with Lt => true | _ => false end
  | None => false
  end.

End Double.

Abbreviation double := Double.double.

Declare Scope double_scope.
Delimit Scope double_scope with D.
Infix "+" := Double.add : double_scope.
Infix "-" := Double.sub : double_scope.
Infix "*" := Double.mul : double_scope.
Infix "/" := Double.div : double_scope.

(** ** Undefined behaviour as [option] *)

Definition bind {A B : Type} (m : option A) (k : A -> option B) : option B :=
  match m with
  | Some a => k a
  | None => None
  end.

Notation "x <- m ;; k" := (bind m (fun x => k))
  (at level 61, m at next level, right associativity).

(** ** C [int] and array reads *)

Definition INT_MIN : Z := - 2 ^ 31.
Definition INT_MAX : Z := 2 ^ 31 - 1.

(** The value of an [int] expression; a signed overflow is undefined. *)
Definition c_int (z : Z) : option Z :=
  if (INT_MIN <=? z) && (z <=? INT_MAX) then Some z else None.

(** [arr[i]], for an array of [length arr] elements. *)
Definition load {A : Type} (arr : list A) (i : Z) : option A :=
  if i <? 0 then None else nth_error arr (Z.to_nat i).

(** ** Data *)

(** [typedef double vector3d[3]], with the components named by the macros
    [X], [Y] and [Z] (indices 0, 1, 2). *)
Record vector3d : Type := mk_vector3d { vX : double; vY : double; vZ : double }.

(** The scratch array [vector3d tetrahedron[4]]. *)
Record tetrahedron : Type :=
  mk_tetrahedron { t0 : vector3d; t1 : vector3d; t2 : vector3d; t3 : vector3d }.

Definition zero_vector : vector3d := mk_vector3d Double.zero Double.zero Double.zero.

(** [memset(tetrahedron, 0, sizeof(tetrahedron[0]) * 4)]. *)
Definition memset_tetrahedron : tetrahedron :=
  mk_tetrahedron zero_vector zero_vector zero_vector zero_vector.

(** [memcpy(tetrahedron[j], v, sizeof(tetrahedron[0]))]; a slot outside the
    four is outside the array. *)
Definition memcpy_slot (t : tetrahedron) (j : Z) (v : vector3d) : option tetrahedron :=
  match j with
  | 0 => Some (mk_tetrahedron v (t1 t) (t2 t) (t3 t))
  | 1 => Some (mk_tetrahedron (t0 t) v (t2 t) (t3 t))
  | 2 => Some (mk_tetrahedron (t0 t) (t1 t) v (t3 t))
  | 3 => Some (mk_tetrahedron (t0 t) (t1 t) (t2 t) v)
  | _ => None
  end.

(** The twelve doubles of a tetrahedron, in the order they lie in memory. *)
Definition coords (t : tetrahedron) : list double :=
  [ vX (t0 t); vY (t0 t); vZ (t0 t);
    vX (t1 t); vY (t1 t); vZ (t1 t);
    vX (t2 t); vY (t2 t); vZ (t2 t);
    vX (t3 t); vY (t3 t); vZ (t3 t) ].

(** ** tetrahedron_volume (source lines 22-42) *)

Definition tetrahedron_volume (tetrahedron : tetrahedron) : double :=
  let ax := (vX (t0 tetrahedron) - vX (t3 tetrahedron))%D in
  let ay := (vY (t0 tetrahedron) - vY (t3 tetrahedron))%D in
  let az := (vZ (t0 tetrahedron) - vZ (t3 tetrahedron))%D in
  let bx := (vX (t1 tetrahedron) - vX (t3 tetrahedron))%D in
  let by_ := (vY (t1 tetrahedron) - vY (t3 tetrahedron))%D in
  let bz := (vZ (t1 tetrahedron) - vZ (t3 tetrahedron))%D in
  let cx := (vX (t2 tetrahedron) - vX (t3 tetrahedron))%D in
  let cy := (vY (t2 tetrahedron) - vY (t3 tetrahedron))%D in
  let cz := (vZ (t2 tetrahedron) - vZ (t3 tetrahedron))%D in
  let vol := ((ax * (by_ * cz - bz * cy)
               + ay * (bz * cx - bx * cz)
               + az * (bx * cy - by_ * cx)) / Double.of_Z 6)%D in
  vol.

(** ** calculate_volume (source lines 58-75) *)

(** The inner loop [for (j = 0; j < 3; j++)], with [n] iterations left. *)
Fixpoint copy_face (n : nat) (j : Z) (vectors : list vector3d)
    (vector_indices : list Z) (i : Z) (tet : tetrahedron) : option tetrahedron :=
  match n with
  | O => Some tet
  | S n' =>
      i3 <- c_int (i * 3) ;;
      pos <- c_int (i3 + j) ;;
      index <- load vector_indices pos ;;
      v <- load vectors index ;;
      tet' <- memcpy_slot tet j v ;;
      copy_face n' (j + 1) vectors vector_indices i tet'
  end.

(** The body of the outer loop up to the call: the scratch array for face [i]. *)
Definition face_tetrahedron (vectors : list vector3d) (vector_indices : list Z)
    (i : Z) : option tetrahedron :=
  tet <- copy_face 3 0 vectors vector_indices i memset_tetrahedron ;;
  v0 <- load vectors 0 ;;
  memcpy_slot tet 3 v0.

(** The outer loop [for (i = 0; i < num_trfaces; i++)], with [n] iterations
    left. *)
Fixpoint faces_loop (n : nat) (i : Z) (vectors : list vector3d)
    (vector_indices : list Z) (volume : double) : option double :=
  match n with
  | O => Some volume
  | S n' =>
      tet <- face_tetrahedron vectors vector_indices i ;;
      faces_loop n' (i + 1) vectors vector_indices
        (volume + tetrahedron_volume tet)%D
  end.

Definition calculate_volume (num_vertices : Z) (vectors : list vector3d)
    (num_trfaces : Z) (vector_indices : list Z) : option double :=
  faces_loop (Z.to_nat num_trfaces) 0 vectors vector_indices Double.zero.

(** ** calculate_volume_qfhexahedron (source lines 93-117) *)

Definition qfhexahedron_indices : list Z :=
  [ 0; 2; 1;
    0; 3; 2;
    4; 5; 6;
    4; 6; 7;
    0; 5; 4;
    0; 1; 5;
    1; 6; 5;
    1; 2; 6;
    3; 6; 2;
    3; 7; 6;
    0; 7; 3;
    0; 4; 7 ].

Definition calculate_volume_qfhexahedron (vertices : list vector3d) : option double :=
  let num_vertices := 8 in
  let num_trfaces := 12 in
  let vector_indices := qfhexahedron_indices in
  calculate_volume num_vertices vertices num_trfaces vector_indices.

(** ** The data of the self-tests *)

(** A brace initialiser of integer constants. *)
Definition vec (x y z : Z) : vector3d :=
  mk_vector3d (Double.of_Z x) (Double.of_Z y) (Double.of_Z z).

(** [#define EPSILON 0.0001]: the double nearest to 1/10000. *)
Definition EPSILON : double := (Double.of_Z 1 / Double.of_Z 10000)%D.

Definition pyramid_vertices : list vector3d :=
  [ vec 0 0 0; vec 1 0 0; vec 0 1 0; vec 1 1 1 ].

Definition pyramid_indices : list Z :=
  [ 1; 0; 2;
    1; 3; 0;
    2; 3; 0;
    1; 2; 3 ].

Definition parallelepiped_vertices : list vector3d :=
  [ vec 0 0 0; vec 4 0 0; vec 4 2 0; vec 0 2 0;
    vec 0 0 2; vec 4 0 2; vec 4 2 2; vec 0 2 2 ].

Definition slanted_parallelepiped_vertices : list vector3d :=
  [ vec 0 0 0; vec 4 0 0; vec 4 2 0; vec 0 2 0;
    vec 0 1 2; vec 4 1 2; vec 4 3 2; vec 0 3 2 ].

(** ** The specification's wording, to compare the code with *)

(** Component-wise vector subtraction and addition. *)
Definition vsub (p q : vector3d) : vector3d :=
  mk_vector3d (vX p - vX q)%D (vY p - vY q)%D (vZ p - vZ q)%D.

Definition vadd (p q : vector3d) : vector3d :=
  mk_vector3d (vX p + vX q)%D (vY p + vY q)%D (vZ p + vZ q)%D.

(** Section 4.1: translate [p3] to the origin, then the scalar triple
    product [a . (b x c)] over [6.0]. *)
Definition tetrahedronVolume (p0 p1 p2 p3 : vector3d) : double :=
  let a := vsub p0 p3 in
  let b := vsub p1 p3 in
  let c := vsub p2 p3 in
  ((vX a * (vY b * vZ c - vZ b * vY c)
    + vY a * (vZ b * vX c - vX b * vZ c)
    + vZ a * (vX b * vY c - vY b * vX c)) / Double.of_Z 6)%D.

(** A face: three indices into the vertex array. *)
Definition face : Type := (Z * Z * Z)%type.

(** The flat index sequence of a face list, of length 3 x face count. *)
Definition flatten_faces (faces : list face) : list Z :=
  flat_map (fun f : face => let '(i, j, k) := f in [i; j; k]) faces.

(** Section 4.2, one face: add to [total] the signed volume of
    [vertices[i], vertices[j], vertices[k], vertices[0]]. *)
Definition add_face (vertices : list vector3d) (total : option double)
    (f : face) : option double :=
  let '(i, j, k) := f in
  volume <- total ;;
  p0 <- load vertices i ;;
  p1 <- load vertices j ;;
  p2 <- load vertices k ;;
  p3 <- load vertices 0 ;;
  Some (volume + tetrahedron_volume (mk_tetrahedron p0 p1 p2 p3))%D.

(** Section 4.2: the total starts at [0.0] and the faces are taken in list
    order. *)
Definition polyhedronVolume (vertices : list vector3d) (faces : list face)
    : option double :=
  fold_left (add_face vertices) faces (Some Double.zero).

(** ** Notions used by the properties *)

(** All four points moved by the same vector [t]. *)
Definition translate (t : vector3d) (tet : tetrahedron) : tetrahedron :=
  mk_tetrahedron (vadd (t0 tet) t) (vadd (t1 tet) t) (vadd (t2 tet) t)
    (vadd (t3 tet) t).

(** The three translated edge vectors [a], [b], [c] of a tetrahedron. *)
Definition edge_a (tet : tetrahedron) : vector3d := vsub (t0 tet) (t3 tet).
Definition edge_b (tet : tetrahedron) : vector3d := vsub (t1 tet) (t3 tet).
Definition edge_c (tet : tetrahedron) : vector3d := vsub (t2 tet) (t3 tet).

(** The argument orders obtained by exchanging two of the first three
    points. *)
Definition swap01 (tet : tetrahedron) : tetrahedron :=
  mk_tetrahedron (t1 tet) (t0 tet) (t2 tet) (t3 tet).
Definition swap02 (tet : tetrahedron) : tetrahedron :=
  mk_tetrahedron (t2 tet) (t1 tet) (t0 tet) (t3 tet).
Definition swap12 (tet : tetrahedron) : tetrahedron :=
  mk_tetrahedron (t0 tet) (t2 tet) (t1 tet) (t3 tet).

(** The exact rational value of a vector with finite components. *)
Definition vector_to_Q (v : vector3d) : option (Q * Q * Q) :=
  x <- Double.to_Q (vX v) ;;
  y <- Double.to_Q (vY v) ;;
  z <- Double.to_Q (vZ v) ;;
  Some (x, y, z).

(** Six times the exact (unrounded) signed volume of a tetrahedron of finite
    points. *)
Definition exact_triple_product (tet : tetrahedron) : option Q :=
  p0 <- vector_to_Q (t0 tet) ;;
  p1 <- vector_to_Q (t1 tet) ;;
  p2 <- vector_to_Q (t2 tet) ;;
  p3 <- vector_to_Q (t3 tet) ;;
  let '(x0, y0, z0) := p0 in
  let '(x1, y1, z1) := p1 in
  let '(x2, y2, z2) := p2 in
  let '(x3, y3, z3) := p3 in
  let ax := (x0 - x3)%Q in let ay := (y0 - y3)%Q in let az := (z0 - z3)%Q in
  let bx := (x1 - x3)%Q in let by_ := (y1 - y3)%Q in let bz := (z1 - z3)%Q in
  let cx := (x2 - x3)%Q in let cy := (y2 - y3)%Q in let cz := (z2 - z3)%Q in
  Some (ax * (by_ * cz - bz * cy)
        + ay * (bz * cx - bx * cz)
        + az * (bx * cy - by_ * cx))%Q.

(** A non-degenerate tetrahedron: four finite points that are not coplanar. *)
Definition nondegenerate (tet : tetrahedron) : bool :=
  match exact_triple_product tet with
  | Some q => negb (Qeq_bool q 0)
  | None => false
  end.

Definition finite_vector (v : vector3d) : bool :=
  Double.is_finite (vX v) && Double.is_finite (vY v) && Double.is_finite (vZ v).

(** The three cofactor differences of the triple product, as the source
    computes them. *)
Definition cofactors (tet : tetrahedron) : vector3d :=
  let b := edge_b tet in
  let c := edge_c tet in
  mk_vector3d (vY b * vZ c - vZ b * vY c)%D
              (vZ b * vX c - vX b * vZ c)%D
              (vX b * vY c - vY b * vX c)%D.

(** No subtraction of coordinates and no cofactor overflows (or is NaN). *)
Definition no_overflow (tet : tetrahedron) : bool :=
  finite_vector (edge_a tet) && finite_vector (edge_b tet)
  && finite_vector (edge_c tet) && finite_vector (cofactors tet).

(** One double is the negation of the other, up to the sign of a zero. *)
Definition negated (x y : double) : Prop :=
  y = Double.opp x \/ (Double.is_zero x = true /\ Double.is_zero y = true).

(** ** Inputs of the examples below *)

(** The faces of the pyramid of [test_pyramid], as triples. *)
Definition pyramid_faces : list face :=
  [ (1, 0, 2); (1, 3, 0); (2, 3, 0); (1, 2, 3) ].

(** The corner tetrahedron of the unit cube, [p3] at the origin. *)
Definition unit_tetrahedron : tetrahedron :=
  mk_tetrahedron (vec 1 0 0) (vec 0 1 0) (vec 0 0 1) (vec 0 0 0).

(** A translation along x by 2^53, where consecutive doubles are 2 apart. *)
Definition far_translation : vector3d := vec (2 ^ 53) 0 0.

(** An axis-aligned tetrahedron whose edge lengths 3, 2^27 + 1 and 2^28 + 3
    have a product that is not a double. *)
Definition long_tetrahedron : tetrahedron :=
  mk_tetrahedron (vec 3 0 0) (vec 0 (2 ^ 27 + 1) 0) (vec 0 0 (2 ^ 28 + 3))
    (vec 0 0 0).

(** Three finite vertices whose coordinates 2^600 have a product above the
    largest double. *)
Definition huge_vertices : list vector3d :=
  [ vec 0 0 0; vec 0 (2 ^ 600) 0; vec 0 0 (2 ^ 600) ].

(** ** calculate_volume_prism (source lines 135-155) *)

Definition prism_indices : list Z :=
  [ 0; 1; 2;
    3; 4; 5;
    0; 4; 3;
    0; 1; 4;
    1; 5; 4;
    1; 2; 5;
    0; 3; 5;
    0; 5; 2 ].

Definition calculate_volume_prism (vertices : list vector3d) : option double :=
  let num_vertices := 6 in
  let num_trfaces := 8 in
  let vector_indices := prism_indices in
  calculate_volume num_vertices vertices num_trfaces vector_indices.

(** ** The self-tests and main (source lines 157-320) *)

(** How a run ends: by returning, by a failed [assert] (which aborts the
    program), or in undefined behaviour.  [printed] lists the doubles handed
    to [printf("%lf\n", _)] so far, in order. *)
Inductive run (A : Type) : Type :=
  | Returns (a : A) (printed : list double)
  | Aborts (printed : list double)
  | Undefined.

Arguments Returns {A} a printed.
Arguments Aborts {A} printed.
Arguments Undefined {A}.

Definition and_then {A B : Type} (r : run A) (k : A -> list double -> run B)
    : run B :=
  match r with
  | Returns a printed => k a printed
  | Aborts printed => Aborts printed
  | Undefined => Undefined
  end.

(** [assert(c); printf("%lf\n", volume);] on a computed volume. *)
Definition assert_then_print (volume : option double) (c : double -> bool)
    (printed : list double) : run unit :=
  match volume with
  | None => Undefined
  | Some v => if c v then Returns tt (printed ++ [v]) else Aborts printed
  end.

(** The condition [volume - expected < EPSILON] of five of the tests. *)
Definition below_epsilon (expected volume : double) : bool :=
  Double.ltb (volume - expected)%D EPSILON.

Definition cube_vertices : list vector3d :=
  [ vec 0 0 0; vec 2 0 0; vec 2 2 0; vec 0 2 0;
    vec 0 0 2; vec 2 0 2; vec 2 2 2; vec 0 2 2 ].

Definition prism_vertices : list vector3d :=
  [ vec 0 0 0; vec 4 0 0; vec 0 4 0;
    vec 0 0 6; vec 4 0 6; vec 0 4 6 ].

Definition trapezium_vertices : list vector3d :=
  [ vec 0 0 0; vec 4 0 0; vec 4 2 0; vec 0 2 0;
    vec 0 0 2; vec 4 0 2; vec 4 2 4; vec 0 2 4 ].

Definition test_pyramid (printed : list double) : run unit :=
  let num_vertices := 4 in
  let vertices := pyramid_vertices in
  let num_trfaces := 4 in
  let vector_indices := pyramid_indices in
  let volume := calculate_volume num_vertices vertices num_trfaces vector_indices in
  assert_then_print volume
    (fun volume => Double.eqb volume (Double.of_Z 1 / Double.of_Z 6)%D) printed.

Definition test_cube (printed : list double) : run unit :=
  let volume := calculate_volume_qfhexahedron cube_vertices in
  assert_then_print volume (below_epsilon (Double.of_Z 8)) printed.

Definition test_parallelepiped (printed : list double) : run unit :=
  let volume := calculate_volume_qfhexahedron parallelepiped_vertices in
  assert_then_print volume (below_epsilon (Double.of_Z 16)) printed.

Definition test_slanted_parallelepiped (printed : list double) : run unit :=
  let volume := calculate_volume_qfhexahedron slanted_parallelepiped_vertices in
  assert_then_print volume (below_epsilon (Double.of_Z 16)) printed.

Definition test_prism (printed : list double) : run unit :=
  let volume := calculate_volume_prism prism_vertices in
  assert_then_print volume (below_epsilon (Double.of_Z 48)) printed.

Definition test_3d_trapezium (printed : list double) : run unit :=
  let volume := calculate_volume_qfhexahedron trapezium_vertices in
  assert_then_print volume (below_epsilon (Double.of_Z 24)) printed.

Definition main : run Z :=
  and_then (test_pyramid []) (fun _ printed =>
  and_then (test_cube printed) (fun _ printed =>
  and_then (test_parallelepiped printed) (fun _ printed =>
  and_then (test_slanted_parallelepiped printed) (fun _ printed =>
  and_then (test_prism printed) (fun _ printed =>
  and_then (test_3d_trapezium printed) (fun _ printed =>
  Returns 0 printed)))))).

(** ** Further notions *)

(** The same face with the opposite winding: its last two indices
    exchanged. *)
Definition flip_face (f : face) : face :=
  let '(i, j, k) := f in (i, k, j).

(** Two runs of the accumulator that are undefined together, or return
    volumes that are each other's negation. *)
Definition negated_result (r r' : option double) : Prop :=
  match r, r' with
  | Some v, Some v' => negated v v'
  | None, None => True
  | _, _ => False
  end.

(** Zero, negative or minus infinity: not NaN and not above zero. *)
Definition nonpositive (x : double) : bool :=
  match x with
  | S754_zero _ => true
  | S754_infinity s => s
  | S754_finite s _ _ => s
  | S754_nan => false
  end.

(** Every read that [calculate_volume] makes for [n] faces stays inside the
    two arrays. *)
Definition reads_in_bounds (vectors : list vector3d) (vector_indices : list Z)
    (n : Z) : Prop :=
  forall k : Z, 0 <= k < 3 * n ->
    exists (index : Z) (v : vector3d),
      load vector_indices k = Some index /\ load vectors index = Some v.

(** A face list longer than a third of [INT_MAX]: 715827883 times the face
    (0, 0, 0). *)
Definition many_faces : list face := repeat (0, 0, 0) (Z.to_nat 715827883).

(** ** Proof automation *)

(** Closes a goal [negated x y] between two values in normal form. *)
Ltac sign_cases :=
  first [ left; reflexivity | right; split; reflexivity ].

(** Splits a successful [bind] in a hypothesis into its two steps. *)
Ltac bind_inv H :=
  match type of H with
  | bind ?m _ = Some _ =>
      let E := fresh "E" in
      destruct m eqn:E; [cbn [bind] in H | discriminate H]
  end.

(** * Properties *)

(** ** Array reads and [int] values *)

Lemma c_int_in_range (z : Z) :
  0 <= z <= INT_MAX -> c_int z = Some z.
Proof.
  intros [Hlo Hhi]. unfold c_int.
  assert (Hmin : INT_MIN <= z) by (unfold INT_MIN; lia).
  apply Z.leb_le in Hmin. apply Z.leb_le in Hhi.
  rewrite Hmin, Hhi. reflexivity.
Qed.

Lemma load_app_right {A : Type} (pre l : list A) (k : Z) :
  0 <= k -> load (pre ++ l) (Z.of_nat (length pre) + k) = load l k.
Proof.
  intros Hk. unfold load.
  destruct (Z.ltb_spec (Z.of_nat (length pre) + k) 0) as [Hneg | _]; [lia |].
  destruct (Z.ltb_spec k 0) as [Hneg | _]; [lia |].
  replace (Z.to_nat (Z.of_nat (length pre) + k))
    with (length pre + Z.to_nat k)%nat by lia.
  rewrite nth_error_app2 by lia.
  f_equal. lia.
Qed.

(** ** The accumulator, face by face *)

Lemma fold_add_face_None (vertices : list vector3d) (faces : list face) :
  fold_left (add_face vertices) faces None = None.
Proof.
  induction faces as [| [[i j] k] faces IH]; simpl; [reflexivity | exact IH].
Qed.

(** The scratch array of face number [i], when the three indices of that face
    are the next three of the flat list. *)
Lemma face_tetrahedron_at (vertices : list vector3d) (pre rest : list Z)
    (i a b c : Z) :
  Z.of_nat (length pre) = 3 * i ->
  3 * i + 2 <= INT_MAX ->
  face_tetrahedron vertices (pre ++ a :: b :: c :: rest) i =
    (p0 <- load vertices a ;;
     p1 <- load vertices b ;;
     p2 <- load vertices c ;;
     p3 <- load vertices 0 ;;
     Some (mk_tetrahedron p0 p1 p2 p3)).
Proof.
  intros Hpre Hmax.
  assert (Hi : 0 <= i) by lia.
  unfold face_tetrahedron, copy_face.
  rewrite (c_int_in_range (i * 3)) by lia. cbn [bind].
  rewrite !c_int_in_range by lia. cbn [bind].
  replace (i * 3 + 0) with (Z.of_nat (length pre) + 0) by lia.
  replace (i * 3 + (0 + 1)) with (Z.of_nat (length pre) + 1) by lia.
  replace (i * 3 + (0 + 1 + 1)) with (Z.of_nat (length pre) + 2) by lia.
  rewrite !load_app_right by lia.
  change (load (a :: b :: c :: rest) 0) with (Some a).
  change (load (a :: b :: c :: rest) 1) with (Some b).
  change (load (a :: b :: c :: rest) 2) with (Some c).
  cbn [bind].
  destruct (load vertices a) as [p0 |]; [| reflexivity]. cbn [bind memcpy_slot].
  destruct (load vertices b) as [p1 |]; [| reflexivity]. cbn [bind memcpy_slot].
  change (0 + 1) with 1.
  cbn [memcpy_slot bind].
  destruct (load vertices c) as [p2 |]; [| reflexivity].
  change (1 + 1) with 2.
  cbn [memcpy_slot bind t0 t1 t2 t3].
  destruct (load vertices 0) as [p3 |]; reflexivity.
Qed.

Lemma faces_loop_flatten (vertices : list vector3d) (faces : list face) :
  forall (pre : list Z) (i : Z) (volume : double),
    Z.of_nat (length pre) = 3 * i ->
    3 * (i + Z.of_nat (length faces)) <= INT_MAX ->
    faces_loop (length faces) i vertices (pre ++ flatten_faces faces) volume =
      fold_left (add_face vertices) faces (Some volume).
Proof.
  induction faces as [| [[a b] c] faces IH]; intros pre i volume Hpre Hmax.
  - reflexivity.
  - cbn [length] in Hmax. rewrite Nat2Z.inj_succ in Hmax.
    cbn [length faces_loop flatten_faces flat_map fold_left app].
    change (flat_map _ faces) with (flatten_faces faces).
    rewrite face_tetrahedron_at by (try assumption; lia).
    unfold add_face at 2. cbn [bind].
    destruct (load vertices a) as [p0 |]; cbn [bind];
      [| symmetry; apply fold_add_face_None].
    destruct (load vertices b) as [p1 |]; cbn [bind];
      [| symmetry; apply fold_add_face_None].
    destruct (load vertices c) as [p2 |]; cbn [bind];
      [| symmetry; apply fold_add_face_None].
    destruct (load vertices 0) as [p3 |]; cbn [bind];
      [| symmetry; apply fold_add_face_None].
    replace (pre ++ a :: b :: c :: flatten_faces faces)
      with ((pre ++ [a; b; c]) ++ flatten_faces faces)
      by (rewrite <- app_assoc; reflexivity).
    apply IH.
    + rewrite length_app. cbn [length]. lia.
    + lia.
Qed.

(** C1, amended. For every vertex array and every face list of at most
    715827882 faces (three times the face count is at most [INT_MAX]),
    [calculate_volume] returns the total that starts at [0.0] and, for each
    face [(i, j, k)] in list order, adds [tetrahedron_volume] of
    [vertices[i], vertices[j], vertices[k], vertices[0]]: the fourth point
    is always the first vertex.  An index outside the vertex array is
    undefined on both sides. *)
Theorem calculate_volume_accumulates (num_vertices : Z)
    (vertices : list vector3d) (faces : list face) :
  3 * Z.of_nat (length faces) <= INT_MAX ->
  calculate_volume num_vertices vertices (Z.of_nat (length faces))
    (flatten_faces faces) = polyhedronVolume vertices faces.
Proof.
  intros Hmax. unfold calculate_volume, polyhedronVolume.
  rewrite Nat2Z.id.
  apply (faces_loop_flatten vertices faces [] 0 Double.zero).
  - reflexivity.
  - lia.
Qed.

Lemma calculate_volume_accumulates_witness :
  3 * Z.of_nat (length pyramid_faces) <= INT_MAX
  /\ calculate_volume 4 pyramid_vertices (Z.of_nat (length pyramid_faces))
       (flatten_faces pyramid_faces)
     = polyhedronVolume pyramid_vertices pyramid_faces.
Proof.
  split.
  - vm_compute. discriminate.
  - apply (calculate_volume_accumulates 4 pyramid_vertices pyramid_faces).
    vm_compute. discriminate.
Defined.

(** ** The signed volume of one tetrahedron *)

(** C2. For every four points, [tetrahedron_volume] is the scalar triple
    product of [a = p0 - p3], [b = p1 - p3], [c = p2 - p3], expanded as
    [(a.x*(b.y*c.z - b.z*c.y) + a.y*(b.z*c.x - b.x*c.z)
      + a.z*(b.x*c.y - b.y*c.x)) / 6.0] with the operations in that order. *)
Theorem tetrahedron_volume_triple_product (p0 p1 p2 p3 : vector3d) :
  tetrahedron_volume (mk_tetrahedron p0 p1 p2 p3) = tetrahedronVolume p0 p1 p2 p3.
Proof.
  unfold tetrahedron_volume, tetrahedronVolume, vsub.
  cbn [t0 t1 t2 t3 vX vY vZ]. reflexivity.
Qed.

(** The result is a function of the three translated edge vectors. *)
Lemma tetrahedron_volume_edges (u v : tetrahedron) :
  edge_a u = edge_a v -> edge_b u = edge_b v -> edge_c u = edge_c v ->
  tetrahedron_volume u = tetrahedron_volume v.
Proof.
  unfold edge_a, edge_b, edge_c, vsub, tetrahedron_volume.
  intros Ha Hb Hc.
  injection Ha as Hax Hay Haz.
  injection Hb as Hbx Hby Hbz.
  injection Hc as Hcx Hcy Hcz.
  cbv zeta.
  rewrite Hax, Hay, Haz, Hbx, Hby, Hbz, Hcx, Hcy, Hcz.
  reflexivity.
Qed.

(** ** The accumulator on particular inputs *)

(** C7. For every vertex array, [calculate_volume] with a face count of zero
    returns exactly [0.0]. *)
Theorem calculate_volume_no_faces (num_vertices : Z) (vectors : list vector3d)
    (vector_indices : list Z) :
  calculate_volume num_vertices vectors 0 vector_indices = Some Double.zero.
Proof. reflexivity. Qed.

(** C9. The result of [calculate_volume] does not depend on [num_vertices]:
    two calls that agree on the vertex array, the face count and the index
    list return the same volume whatever the two vertex counts. *)
Theorem calculate_volume_ignores_num_vertices (n1 n2 : Z)
    (vectors : list vector3d) (num_trfaces : Z) (vector_indices : list Z) :
  calculate_volume n1 vectors num_trfaces vector_indices
  = calculate_volume n2 vectors num_trfaces vector_indices.
Proof. reflexivity. Qed.

(** C3. On the pyramid of [test_pyramid] (vertices (0,0,0), (1,0,0), (0,1,0),
    (1,1,1); faces (1,0,2), (1,3,0), (2,3,0), (1,2,3)) [calculate_volume]
    returns the double [1/6.0]: the assertion [volume == 1/6.0] of the test
    holds, and the value is within 1/10000 of the rational 1/6. *)
Theorem calculate_volume_pyramid :
  exists volume : double,
    calculate_volume 4 pyramid_vertices 4 pyramid_indices = Some volume
    /\ volume = (Double.of_Z 1 / Double.of_Z 6)%D
    /\ Double.eqb volume (Double.of_Z 1 / Double.of_Z 6)%D = true
    /\ Double.near volume (1 # 6) (1 # 10000) = true.
Proof.
  exists (Double.of_Z 1 / Double.of_Z 6)%D.
  repeat split; vm_compute; reflexivity.
Qed.

(** C6. On the sheared parallelepiped of [test_slanted_parallelepiped], with
    the fixed table of twelve triangles, [calculate_volume_qfhexahedron]
    returns a volume within 1/10000 of 16, the assertion
    [volume - 16.0 < EPSILON] of the test holds, and the unsheared 4x2x2 box
    yields the very same double. *)
Theorem calculate_volume_slanted_parallelepiped :
  exists volume : double,
    calculate_volume_qfhexahedron slanted_parallelepiped_vertices = Some volume
    /\ Double.near volume 16 (1 # 10000) = true
    /\ Double.ltb (volume - Double.of_Z 16)%D EPSILON = true
    /\ calculate_volume_qfhexahedron parallelepiped_vertices = Some volume.
Proof.
  exists (S754_finite false 9007199254740991 (-49)).
  repeat split; vm_compute; reflexivity.
Qed.

(** ** Translation *)

(** C4, as stated, fails: moving the unit corner tetrahedron by 2^53 along x
    absorbs the x coordinate 1 of [p0] (2^53 + 1 rounds to 2^53), the edge
    [a] becomes the zero vector and the volume drops from [1/6.0] to [0.0]. *)
Lemma translation_changes_volume :
  forallb Double.is_double (coords unit_tetrahedron) = true
  /\ forallb Double.is_double
       [vX far_translation; vY far_translation; vZ far_translation] = true
  /\ tetrahedron_volume unit_tetrahedron = (Double.of_Z 1 / Double.of_Z 6)%D
  /\ tetrahedron_volume (translate far_translation unit_tetrahedron) = Double.zero
  /\ tetrahedron_volume (translate far_translation unit_tetrahedron)
     <> tetrahedron_volume unit_tetrahedron.
Proof.
  repeat split; vm_compute; try reflexivity. discriminate.
Qed.

(** C4, amended. [tetrahedron_volume] is unchanged by a translation of all
    four points whenever the translation leaves the three edge vectors
    [p0 - p3], [p1 - p3], [p2 - p3] unchanged as doubles, that is whenever
    the additions of [t] round nothing away from these differences. *)
Theorem tetrahedron_volume_translation (t : vector3d) (tet : tetrahedron) :
  vsub (vadd (t0 tet) t) (vadd (t3 tet) t) = vsub (t0 tet) (t3 tet) ->
  vsub (vadd (t1 tet) t) (vadd (t3 tet) t) = vsub (t1 tet) (t3 tet) ->
  vsub (vadd (t2 tet) t) (vadd (t3 tet) t) = vsub (t2 tet) (t3 tet) ->
  tetrahedron_volume (translate t tet) = tetrahedron_volume tet.
Proof.
  intros Ha Hb Hc.
  apply tetrahedron_volume_edges; assumption.
Qed.

Lemma tetrahedron_volume_translation_witness :
  let t := vec 5 (-3) 2 in
  let tet := long_tetrahedron in
  vsub (vadd (t0 tet) t) (vadd (t3 tet) t) = vsub (t0 tet) (t3 tet)
  /\ vsub (vadd (t1 tet) t) (vadd (t3 tet) t) = vsub (t1 tet) (t3 tet)
  /\ vsub (vadd (t2 tet) t) (vadd (t3 tet) t) = vsub (t2 tet) (t3 tet)
  /\ tetrahedron_volume (translate t tet) = tetrahedron_volume tet.
Proof.
  intros t tet.
  split; [vm_compute; reflexivity |].
  split; [vm_compute; reflexivity |].
  split; [vm_compute; reflexivity |].
  apply (tetrahedron_volume_translation t tet); vm_compute; reflexivity.
Defined.

(** ** Rounding is symmetric in the sign *)

Lemma binary_round_aux_negb (s : bool) (m e : Z) (l : location) :
  binary_round_aux Double.prec Double.emax (negb s) m e l
  = SFopp (binary_round_aux Double.prec Double.emax s m e l).
Proof.
  unfold binary_round_aux.
  destruct (shr_fexp Double.prec Double.emax m e l) as [mrs' e'].
  destruct (shr_fexp Double.prec Double.emax _ e' loc_Exact) as [mrs'' e''].
  destruct (shr_m mrs''); try reflexivity.
  destruct (e'' <=? Double.emax - Double.prec); reflexivity.
Qed.

Lemma binary_round_negb (s : bool) (m : positive) (e : Z) :
  binary_round Double.prec Double.emax (negb s) m e
  = SFopp (binary_round Double.prec Double.emax s m e).
Proof.
  unfold binary_round.
  destruct (shl_align m e _) as [mz ez].
  apply binary_round_aux_negb.
Qed.

Lemma binary_normalize_opp (m e : Z) :
  negated (binary_normalize Double.prec Double.emax m e false)
          (binary_normalize Double.prec Double.emax (- m) e false).
Proof.
  destruct m as [| p | p]; unfold negated; cbn [binary_normalize Z.opp].
  - right. split; reflexivity.
  - left. apply (binary_round_negb false).
  - left. apply (binary_round_negb true).
Qed.

Lemma abs_opp (x : double) : Double.abs (Double.opp x) = Double.abs x.
Proof. destruct x as [s | s | | s m e]; reflexivity. Qed.

Lemma negated_zero (x y : double) :
  Double.is_zero x = true -> Double.is_zero y = true -> negated x y.
Proof. intros Hx Hy. right. split; assumption. Qed.

Lemma negated_opp (x : double) : negated x (Double.opp x).
Proof. left. reflexivity. Qed.

(** ** Negation through the four operations *)

Lemma mul_comm (x y : double) : (x * y)%D = (y * x)%D.
Proof.
  destruct x as [sx | sx | | sx mx ex], y as [sy | sy | | sy my ey];
    unfold Double.mul, SFmul; try reflexivity;
    try (destruct sx, sy; reflexivity).
  rewrite (Pos.mul_comm mx my), (Z.add_comm ex ey), (xorb_comm sx sy).
  reflexivity.
Qed.

Lemma mul_opp_r (a u : double) : (a * Double.opp u)%D = Double.opp (a * u)%D.
Proof.
  destruct a as [sa | sa | | sa ma ea], u as [su | su | | su mu eu];
    unfold Double.mul, Double.opp, SFmul, SFopp; try reflexivity;
    try (destruct sa, su; reflexivity).
  destruct sa, su; cbn [xorb negb];
    first [ apply (binary_round_aux_negb false)
          | rewrite (binary_round_aux_negb false);
            destruct (binary_round_aux _ _ false _ _ _) as [[] | [] | | [] ? ?];
            reflexivity ].
Qed.

Lemma mul_negated (a u u' : double) :
  negated u u' -> negated (a * u)%D (a * u')%D.
Proof.
  intros [-> | [Hu Hu']].
  - left. apply mul_opp_r.
  - destruct u as [su | | |]; try discriminate.
    destruct u' as [su' | | |]; try discriminate.
    destruct a as [sa | sa | | sa ma ea]; unfold Double.mul, SFmul.
    + right. split; reflexivity.
    + left. reflexivity.
    + left. reflexivity.
    + right. split; reflexivity.
Qed.

Lemma cond_Zopp_negb (s : bool) (m : Z) :
  cond_Zopp (negb s) m = - cond_Zopp s m.
Proof. destruct s; cbn [cond_Zopp negb]; lia. Qed.

Lemma sub_antisym (x y : double) : negated (x - y)%D (y - x)%D.
Proof.
  destruct x as [sx | sx | | sx mx ex], y as [sy | sy | | sy my ey];
    unfold Double.sub, SFsub;
    try (left; reflexivity);
    try (destruct sx, sy; sign_cases);
    try (destruct sx; sign_cases);
    try (destruct sy; sign_cases).
  cbv zeta. rewrite (Z.min_comm ey ex).
  match goal with
  | |- negated (binary_normalize _ _ ?m _ _) (binary_normalize _ _ ?m' _ _) =>
      replace m' with (- m) by lia
  end.
  apply binary_normalize_opp.
Qed.

Lemma add_opp_opp (x y : double) :
  negated (x + y)%D (Double.opp x + Double.opp y)%D.
Proof.
  destruct x as [sx | sx | | sx mx ex], y as [sy | sy | | sy my ey];
    unfold Double.add, Double.opp, SFadd, SFopp;
    try (left; reflexivity);
    try (destruct sx, sy; sign_cases);
    try (destruct sx; sign_cases);
    try (destruct sy; sign_cases).
  cbv zeta. rewrite !cond_Zopp_negb.
  match goal with
  | |- negated (binary_normalize _ _ ?m _ _) (binary_normalize _ _ ?m' _ _) =>
      replace m' with (- m) by lia
  end.
  apply binary_normalize_opp.
Qed.

Lemma add_zero_l (z x : double) :
  Double.is_zero z = true -> Double.is_zero x = false -> (z + x)%D = x.
Proof.
  destruct z as [sz | | |]; try discriminate. intros _.
  destruct x as [sx | [] | | sx mx ex]; try discriminate; reflexivity.
Qed.

Lemma add_zero_r (x z : double) :
  Double.is_zero z = true -> Double.is_zero x = false -> (x + z)%D = x.
Proof.
  destruct z as [sz | | |]; try discriminate. intros _.
  destruct x as [sx | [] | | sx mx ex]; try discriminate; reflexivity.
Qed.

Lemma add_zero_zero (x y : double) :
  Double.is_zero x = true -> Double.is_zero y = true ->
  Double.is_zero (x + y)%D = true.
Proof.
  destruct x as [[] | | |], y as [[] | | |]; try discriminate; reflexivity.
Qed.

Lemma is_zero_opp (x : double) :
  Double.is_zero (Double.opp x) = Double.is_zero x.
Proof. destruct x; reflexivity. Qed.

Lemma add_negated (x x' y y' : double) :
  negated x x' -> negated y y' -> negated (x + y)%D (x' + y')%D.
Proof.
  intros [-> | [Hx Hx']] [-> | [Hy Hy']].
  - apply add_opp_opp.
  - destruct (Double.is_zero x) eqn:Ex.
    + apply negated_zero; apply add_zero_zero;
        rewrite ?is_zero_opp; assumption.
    + rewrite !add_zero_r by (rewrite ?is_zero_opp; assumption).
      apply negated_opp.
  - destruct (Double.is_zero y) eqn:Ey.
    + apply negated_zero; apply add_zero_zero;
        rewrite ?is_zero_opp; assumption.
    + rewrite !add_zero_l by (rewrite ?is_zero_opp; assumption).
      apply negated_opp.
  - apply negated_zero; apply add_zero_zero; assumption.
Qed.

Lemma div_opp_l (x d : double) : (Double.opp x / d)%D = Double.opp (x / d)%D.
Proof.
  destruct x as [sx | sx | | sx mx ex], d as [sd | sd | | sd md ed];
    unfold Double.div, Double.opp, SFdiv, SFopp; try reflexivity;
    try (destruct sx, sd; reflexivity).
  destruct (SFdiv_core_binary _ _ _ _ _ _) as [[mz ez] lz].
  destruct sx, sd; cbn [xorb negb];
    first [ apply (binary_round_aux_negb false)
          | rewrite (binary_round_aux_negb false);
            destruct (binary_round_aux _ _ false _ _ _) as [[] | [] | | [] ? ?];
            reflexivity ].
Qed.

Lemma div_negated (x x' d : double) :
  negated x x' -> negated (x / d)%D (x' / d)%D.
Proof.
  intros [-> | [Hx Hx']].
  - left. apply div_opp_l.
  - destruct x as [sx | | |]; try discriminate.
    destruct x' as [sx' | | |]; try discriminate.
    destruct d as [sd | sd | | sd md ed]; unfold Double.div, SFdiv.
    + left. reflexivity.
    + right. split; reflexivity.
    + left. reflexivity.
    + right. split; reflexivity.
Qed.

(** ** Exchanging two of the first three points *)

(** Exchanging [p1] and [p2] negates every cofactor and hence the result, up
    to the sign of a zero. *)
Lemma tetrahedron_volume_swap12_negated (tet : tetrahedron) :
  negated (tetrahedron_volume tet) (tetrahedron_volume (swap12 tet)).
Proof.
  destruct tet as [[x0 y0 z0] [x1 y1 z1] [x2 y2 z2] [x3 y3 z3]].
  unfold tetrahedron_volume, swap12. cbn [t0 t1 t2 t3 vX vY vZ]. cbv zeta.
  set (ax := (x0 - x3)%D). set (ay := (y0 - y3)%D). set (az := (z0 - z3)%D).
  set (bx := (x1 - x3)%D). set (by_ := (y1 - y3)%D). set (bz := (z1 - z3)%D).
  set (cx := (x2 - x3)%D). set (cy := (y2 - y3)%D). set (cz := (z2 - z3)%D).
  rewrite (mul_comm cy bz), (mul_comm cz by_), (mul_comm cz bx),
    (mul_comm cx bz), (mul_comm cx by_), (mul_comm cy bx).
  apply div_negated.
  repeat apply add_negated; apply mul_negated; apply sub_antisym.
Qed.

(** C5, as stated, fails for the exchange of [p0] and [p1]: on the
    non-degenerate tetrahedron with edges 3, 2^27 + 1, 2^28 + 3 along the
    axes the two argument orders round different products, and the two
    results 2^54 + 5 * 2^26 and -(2^54 + 5 * 2^26 + 4) differ in magnitude. *)
Lemma swap01_changes_magnitude :
  forallb Double.is_double (coords long_tetrahedron) = true
  /\ nondegenerate long_tetrahedron = true
  /\ tetrahedron_volume long_tetrahedron
     = S754_finite false 4503599711256576 2
  /\ tetrahedron_volume (swap01 long_tetrahedron)
     = S754_finite true 4503599711256577 2
  /\ Double.abs (tetrahedron_volume (swap01 long_tetrahedron))
     <> Double.abs (tetrahedron_volume long_tetrahedron)
  /\ tetrahedron_volume (swap01 long_tetrahedron)
     <> Double.opp (tetrahedron_volume long_tetrahedron).
Proof.
  repeat split; vm_compute; try reflexivity; discriminate.
Qed.

(** C5, amended. For every tetrahedron whose computed volume is not zero,
    exchanging [p1] and [p2] negates the result of [tetrahedron_volume] and
    preserves its magnitude exactly.  (An exchange that involves [p0] pairs
    the factors differently and negates the result only up to rounding.) *)
Theorem tetrahedron_volume_swap12 (tet : tetrahedron) :
  Double.is_zero (tetrahedron_volume tet) = false ->
  tetrahedron_volume (swap12 tet) = Double.opp (tetrahedron_volume tet)
  /\ Double.abs (tetrahedron_volume (swap12 tet))
     = Double.abs (tetrahedron_volume tet).
Proof.
  intros Hnz.
  destruct (tetrahedron_volume_swap12_negated tet) as [Hopp | [Hz _]].
  - split; [exact Hopp |]. rewrite Hopp. apply abs_opp.
  - rewrite Hz in Hnz. discriminate.
Qed.

Lemma tetrahedron_volume_swap12_witness :
  Double.is_zero (tetrahedron_volume long_tetrahedron) = false
  /\ tetrahedron_volume (swap12 long_tetrahedron)
     = Double.opp (tetrahedron_volume long_tetrahedron)
  /\ Double.abs (tetrahedron_volume (swap12 long_tetrahedron))
     = Double.abs (tetrahedron_volume long_tetrahedron).
Proof.
  split.
  - vm_compute. reflexivity.
  - apply (tetrahedron_volume_swap12 long_tetrahedron).
    vm_compute. reflexivity.
Defined.

(** ** Zeros *)

Lemma sub_self_finite (x : double) :
  Double.is_finite (x - x)%D = true -> (x - x)%D = Double.zero.
Proof.
  destruct x as [[] | [] | | s m e]; try discriminate; try reflexivity.
  intros _. unfold Double.sub, SFsub. cbv zeta.
  match goal with
  | |- binary_normalize _ _ (?a - ?a) _ _ = _ =>
      replace (a - a) with 0 by (symmetry; apply Z.sub_diag)
  end.
  reflexivity.
Qed.

Lemma mul_zero_l (z y : double) :
  Double.is_zero z = true -> Double.is_finite y = true ->
  Double.is_zero (z * y)%D = true.
Proof.
  destruct z as [sz | | |]; try discriminate.
  destruct y as [sy | | | sy my ey]; try discriminate; reflexivity.
Qed.

Lemma mul_zero_r (x z : double) :
  Double.is_finite x = true -> Double.is_zero z = true ->
  Double.is_zero (x * z)%D = true.
Proof.
  intros Hx Hz. rewrite mul_comm. apply mul_zero_l; assumption.
Qed.

Lemma sub_zero_zero (x y : double) :
  Double.is_zero x = true -> Double.is_zero y = true ->
  Double.is_zero (x - y)%D = true.
Proof.
  destruct x as [[] | | |], y as [[] | | |]; try discriminate; reflexivity.
Qed.

Lemma div_zero_six (x : double) :
  Double.is_zero x = true -> Double.is_zero (x / Double.of_Z 6)%D = true.
Proof.
  destruct x as [sx | | |]; try discriminate. intros _.
  destruct sx; reflexivity.
Qed.

Lemma eqb_zero (x : double) :
  Double.is_zero x = true -> Double.eqb x Double.zero = true.
Proof. destruct x as [sx | | |]; try discriminate. reflexivity. Qed.

Lemma eqb_refl (x : double) :
  Double.is_nan x = false -> Double.eqb x x = true.
Proof.
  destruct x as [sx | [] | | [] m e]; try discriminate; intros _;
    try reflexivity;
    unfold Double.eqb, SFeqb, SFcompare;
    rewrite Z.compare_refl, Pos.compare_cont_refl; reflexivity.
Qed.

(** Adding a zero leaves a total equal to itself under [==]. *)
Lemma add_zero_eqb (volume z : double) :
  Double.is_nan volume = false -> Double.is_zero z = true ->
  Double.eqb (volume + z)%D volume = true.
Proof.
  intros Hnan Hz.
  destruct (Double.is_zero volume) eqn:Ev.
  - destruct volume as [[] | | |]; try discriminate.
    + destruct z as [[] | | |]; try discriminate; reflexivity.
    + destruct z as [[] | | |]; try discriminate; reflexivity.
  - rewrite add_zero_r by assumption. apply eqb_refl. exact Hnan.
Qed.

(** The triple product vanishes as soon as one edge vector is the zero
    vector and nothing overflows. *)
Lemma finite_vector_components (v : vector3d) :
  finite_vector v = true ->
  Double.is_finite (vX v) = true /\ Double.is_finite (vY v) = true
  /\ Double.is_finite (vZ v) = true.
Proof.
  unfold finite_vector. intros H.
  apply andb_prop in H. destruct H as [H Hz].
  apply andb_prop in H. destruct H as [Hx Hy].
  repeat split; assumption.
Qed.

Lemma no_overflow_parts (tet : tetrahedron) :
  no_overflow tet = true ->
  finite_vector (edge_a tet) = true /\ finite_vector (edge_b tet) = true
  /\ finite_vector (edge_c tet) = true /\ finite_vector (cofactors tet) = true.
Proof.
  unfold no_overflow. intros H.
  apply andb_prop in H. destruct H as [H Hk].
  apply andb_prop in H. destruct H as [H Hc].
  apply andb_prop in H. destruct H as [Ha Hb].
  repeat split; assumption.
Qed.

Lemma volume_of_edges (tet : tetrahedron) :
  tetrahedron_volume tet =
    ((vX (edge_a tet) * vX (cofactors tet)
      + vY (edge_a tet) * vY (cofactors tet)
      + vZ (edge_a tet) * vZ (cofactors tet)) / Double.of_Z 6)%D.
Proof. reflexivity. Qed.

Lemma zero_edge (p q : vector3d) :
  p = q -> finite_vector (vsub p q) = true ->
  Double.is_zero (vX (vsub p q)) = true
  /\ Double.is_zero (vY (vsub p q)) = true
  /\ Double.is_zero (vZ (vsub p q)) = true.
Proof.
  intros -> Hfin.
  apply finite_vector_components in Hfin. cbn [vsub vX vY vZ] in *.
  destruct Hfin as (Hx & Hy & Hz).
  rewrite (sub_self_finite _ Hx), (sub_self_finite _ Hy), (sub_self_finite _ Hz).
  repeat split; reflexivity.
Qed.

Lemma volume_zero_sum (x y z : double) :
  Double.is_zero x = true -> Double.is_zero y = true ->
  Double.is_zero z = true ->
  Double.is_zero ((x + y + z) / Double.of_Z 6)%D = true.
Proof.
  intros Hx Hy Hz. apply div_zero_six.
  apply add_zero_zero; [apply add_zero_zero |]; assumption.
Qed.

Lemma volume_zero_edge_a (tet : tetrahedron) :
  t0 tet = t3 tet -> no_overflow tet = true ->
  Double.is_zero (tetrahedron_volume tet) = true.
Proof.
  intros Heq Hno. rewrite volume_of_edges.
  apply no_overflow_parts in Hno. destruct Hno as (Ha & _ & _ & Hk).
  destruct (zero_edge _ _ Heq Ha) as (Hx & Hy & Hz).
  apply finite_vector_components in Hk. destruct Hk as (Kx & Ky & Kz).
  apply volume_zero_sum; apply mul_zero_l; assumption.
Qed.

Lemma volume_zero_edge_b (tet : tetrahedron) :
  t1 tet = t3 tet -> no_overflow tet = true ->
  Double.is_zero (tetrahedron_volume tet) = true.
Proof.
  intros Heq Hno. rewrite volume_of_edges.
  apply no_overflow_parts in Hno. destruct Hno as (Ha & Hb & Hc & _).
  destruct (zero_edge _ _ Heq Hb) as (Hx & Hy & Hz).
  apply finite_vector_components in Ha. destruct Ha as (Ax & Ay & Az).
  apply finite_vector_components in Hc. destruct Hc as (Cx & Cy & Cz).
  unfold cofactors. cbn [vX vY vZ]. fold (edge_b tet) in Hx, Hy, Hz.
  apply volume_zero_sum; apply mul_zero_r; try assumption;
    apply sub_zero_zero;
    first [ apply mul_zero_l; assumption | apply mul_zero_r; assumption ].
Qed.

Lemma volume_zero_edge_c (tet : tetrahedron) :
  t2 tet = t3 tet -> no_overflow tet = true ->
  Double.is_zero (tetrahedron_volume tet) = true.
Proof.
  intros Heq Hno. rewrite volume_of_edges.
  apply no_overflow_parts in Hno. destruct Hno as (Ha & Hb & Hc & _).
  destruct (zero_edge _ _ Heq Hc) as (Hx & Hy & Hz).
  apply finite_vector_components in Ha. destruct Ha as (Ax & Ay & Az).
  apply finite_vector_components in Hb. destruct Hb as (Bx & By & Bz).
  unfold cofactors. cbn [vX vY vZ]. fold (edge_c tet) in Hx, Hy, Hz.
  apply volume_zero_sum; apply mul_zero_r; try assumption;
    apply sub_zero_zero;
    first [ apply mul_zero_l; assumption | apply mul_zero_r; assumption ].
Qed.

(** ** Faces through vertex 0 *)

Lemma c_int_Some (z z' : Z) : c_int z = Some z' -> z' = z.
Proof.
  unfold c_int. destruct (_ && _); [| discriminate].
  intros H. injection H as <-. reflexivity.
Qed.

(** What the scratch array of face [i] holds after the four copies. *)
Lemma face_tetrahedron_inv (vectors : list vector3d) (vector_indices : list Z)
    (i : Z) (tet : tetrahedron) :
  face_tetrahedron vectors vector_indices i = Some tet ->
  exists a b c : Z,
    load vector_indices (i * 3 + 0) = Some a
    /\ load vector_indices (i * 3 + 1) = Some b
    /\ load vector_indices (i * 3 + 2) = Some c
    /\ load vectors a = Some (t0 tet)
    /\ load vectors b = Some (t1 tet)
    /\ load vectors c = Some (t2 tet)
    /\ load vectors 0 = Some (t3 tet).
Proof.
  unfold face_tetrahedron, copy_face. intros H.
  bind_inv H. bind_inv E.
  apply c_int_Some in E0. subst z.
  bind_inv E. apply c_int_Some in E0. subst z.
  bind_inv E. rename z into a. bind_inv E. rename v into p0.
  cbn [memcpy_slot bind] in E.
  bind_inv E. apply c_int_Some in E2. subst z.
  bind_inv E. rename z into b. bind_inv E. rename v into p1.
  change (0 + 1) with 1 in *.
  cbn [memcpy_slot bind t0 t1 t2 t3] in E.
  bind_inv E. apply c_int_Some in E4. subst z.
  bind_inv E. rename z into c. bind_inv E. rename v into p2.
  change (1 + 1) with 2 in *.
  cbn [memcpy_slot bind t0 t1 t2 t3] in E.
  injection E as <-.
  bind_inv H. rename v into p3.
  cbn [memcpy_slot t0 t1 t2 t3] in H. injection H as <-.
  exists a, b, c. cbn [t0 t1 t2 t3].
  repeat split; assumption.
Qed.

(** C10, as stated, fails: with the finite vertices (0,0,0), (0,2^600,0),
    (0,0,2^600) the face (0,1,2) has the zero vector as edge [a], but the
    cofactor [b.y * c.z] overflows to infinity, [0 * infinity] is NaN, and
    the face contributes NaN instead of zero. *)
Lemma zero_index_face_overflows :
  forallb finite_vector huge_vertices = true
  /\ forallb (fun v => forallb Double.is_double [vX v; vY v; vZ v])
       huge_vertices = true
  /\ load [0; 1; 2] (0 * 3 + 0) = Some 0
  /\ (exists tet : tetrahedron,
        face_tetrahedron huge_vertices [0; 1; 2] 0 = Some tet
        /\ edge_a tet = zero_vector
        /\ tetrahedron_volume tet = S754_nan
        /\ Double.eqb (tetrahedron_volume tet) Double.zero = false)
  /\ calculate_volume 3 huge_vertices 1 [0; 1; 2] = Some S754_nan.
Proof.
  split; [vm_compute; reflexivity |].
  split; [vm_compute; reflexivity |].
  split; [reflexivity |].
  split; [| vm_compute; reflexivity].
  exists (mk_tetrahedron (vec 0 0 0) (vec 0 (2 ^ 600) 0) (vec 0 0 (2 ^ 600))
            (vec 0 0 0)).
  repeat split; vm_compute; reflexivity.
Qed.

(** C10, amended. A face whose index triple contains index 0 contributes a
    zero to the total of [calculate_volume] ([+0.0] or [-0.0], equal to
    [0.0] under [==], and leaving every non-NaN total equal to itself)
    provided nothing overflows in that face's tetrahedron: the nine
    translated coordinates and the three cofactor differences are finite. *)
Theorem zero_index_face_contributes_zero (vectors : list vector3d)
    (vector_indices : list Z) (i : Z) (tet : tetrahedron) :
  face_tetrahedron vectors vector_indices i = Some tet ->
  load vector_indices (i * 3 + 0) = Some 0
  \/ load vector_indices (i * 3 + 1) = Some 0
  \/ load vector_indices (i * 3 + 2) = Some 0 ->
  no_overflow tet = true ->
  Double.is_zero (tetrahedron_volume tet) = true
  /\ Double.eqb (tetrahedron_volume tet) Double.zero = true
  /\ forall volume : double,
       Double.is_nan volume = false ->
       Double.eqb (volume + tetrahedron_volume tet)%D volume = true.
Proof.
  intros Hface Hzero Hno.
  destruct (face_tetrahedron_inv _ _ _ _ Hface)
    as (a & b & c & Ia & Ib & Ic & Va & Vb & Vc & V0).
  assert (Hz : Double.is_zero (tetrahedron_volume tet) = true).
  { destruct Hzero as [H | [H | H]].
    - rewrite H in Ia. injection Ia as <-.
      apply volume_zero_edge_a; [congruence | exact Hno].
    - rewrite H in Ib. injection Ib as <-.
      apply volume_zero_edge_b; [congruence | exact Hno].
    - rewrite H in Ic. injection Ic as <-.
      apply volume_zero_edge_c; [congruence | exact Hno]. }
  split; [exact Hz |].
  split; [apply eqb_zero; exact Hz |].
  intros volume Hnan. apply add_zero_eqb; assumption.
Qed.

Lemma zero_index_face_contributes_zero_witness :
  let tet := mk_tetrahedron (vec 1 0 0) (vec 0 0 0) (vec 0 1 0) (vec 0 0 0) in
  face_tetrahedron pyramid_vertices pyramid_indices 0 = Some tet
  /\ load pyramid_indices (0 * 3 + 1) = Some 0
  /\ no_overflow tet = true
  /\ Double.is_zero (tetrahedron_volume tet) = true.
Proof.
  intros tet.
  split; [reflexivity |].
  split; [reflexivity |].
  split; [reflexivity |].
  apply (zero_index_face_contributes_zero pyramid_vertices pyramid_indices 0 tet).
  - reflexivity.
  - right. left. reflexivity.
  - reflexivity.
Defined.

(** ** Which reads the accumulator makes *)

Lemma c_int_Some_range (z z' : Z) :
  c_int z = Some z' -> INT_MIN <= z <= INT_MAX.
Proof.
  unfold c_int.
  destruct (Z.leb_spec INT_MIN z) as [Hlo | Hlo],
           (Z.leb_spec z INT_MAX) as [Hhi | Hhi];
    cbn [andb]; intros Hz; try discriminate Hz; split; assumption.
Qed.

Lemma load_Some_range {A : Type} (arr : list A) (i : Z) (x : A) :
  load arr i = Some x -> 0 <= i < Z.of_nat (length arr).
Proof.
  unfold load. destruct (Z.ltb_spec i 0) as [| Hi]; [discriminate |].
  intros H.
  assert (Hlt : (Z.to_nat i < length arr)%nat)
    by (apply nth_error_Some; rewrite H; discriminate).
  lia.
Qed.

Lemma load_in_range {A : Type} (arr : list A) (i : Z) :
  0 <= i < Z.of_nat (length arr) -> exists x : A, load arr i = Some x.
Proof.
  intros [Hlo Hhi]. unfold load.
  destruct (Z.ltb_spec i 0) as [| _]; [lia |].
  destruct (nth_error arr (Z.to_nat i)) as [x |] eqn:E.
  - exists x. reflexivity.
  - apply nth_error_None in E. lia.
Qed.

(** The scratch array of face [i] from the three indices and four vertices
    read for it. *)
Lemma face_tetrahedron_Some (vectors : list vector3d) (vector_indices : list Z)
    (i a b c : Z) (p0 p1 p2 p3 : vector3d) :
  0 <= i -> 3 * i + 2 <= INT_MAX ->
  load vector_indices (3 * i) = Some a ->
  load vector_indices (3 * i + 1) = Some b ->
  load vector_indices (3 * i + 2) = Some c ->
  load vectors a = Some p0 -> load vectors b = Some p1 ->
  load vectors c = Some p2 -> load vectors 0 = Some p3 ->
  face_tetrahedron vectors vector_indices i = Some (mk_tetrahedron p0 p1 p2 p3).
Proof.
  intros Hi Hmax Ia Ib Ic Va Vb Vc V0.
  unfold face_tetrahedron, copy_face.
  rewrite (c_int_in_range (i * 3)) by lia. cbn [bind].
  rewrite !c_int_in_range by lia. cbn [bind].
  replace (i * 3 + 0) with (3 * i) by lia.
  replace (i * 3 + (0 + 1)) with (3 * i + 1) by lia.
  replace (i * 3 + (0 + 1 + 1)) with (3 * i + 2) by lia.
  rewrite Ia, Ib, Ic. cbn [bind].
  rewrite Va. cbn [bind memcpy_slot].
  rewrite Vb. change (0 + 1) with 1. cbn [bind memcpy_slot].
  rewrite Vc. change (1 + 1) with 2. cbn [bind memcpy_slot t0 t1 t2 t3].
  rewrite V0. reflexivity.
Qed.

(** The [int] expressions of face [i] that were evaluated did not overflow. *)
Lemma face_tetrahedron_int_range (vectors : list vector3d)
    (vector_indices : list Z) (i : Z) (tet : tetrahedron) :
  face_tetrahedron vectors vector_indices i = Some tet ->
  INT_MIN <= i * 3 /\ i * 3 + 2 <= INT_MAX.
Proof.
  unfold face_tetrahedron, copy_face. intros H.
  bind_inv H. bind_inv E.
  pose proof (c_int_Some_range _ _ E0) as R0.
  apply c_int_Some in E0. subst z.
  bind_inv E. clear E0.
  bind_inv E. bind_inv E. cbn [memcpy_slot bind] in E.
  bind_inv E. clear E2.
  bind_inv E. bind_inv E. change (0 + 1) with 1 in *.
  cbn [memcpy_slot bind t0 t1 t2 t3] in E.
  bind_inv E.
  pose proof (c_int_Some_range _ _ E4) as R2.
  change (1 + 1) with 2 in R2.
  lia.
Qed.

Lemma face_tetrahedron_defined_iff (vectors : list vector3d)
    (vector_indices : list Z) (i : Z) :
  0 <= i ->
  (exists tet, face_tetrahedron vectors vector_indices i = Some tet) <->
  (3 * i + 2 <= INT_MAX
   /\ forall k : Z, 3 * i <= k < 3 * i + 3 ->
        exists (index : Z) (v : vector3d),
          load vector_indices k = Some index /\ load vectors index = Some v).
Proof.
  intros Hi. split.
  - intros [tet H].
    pose proof (face_tetrahedron_int_range _ _ _ _ H) as [_ Hmax].
    destruct (face_tetrahedron_inv _ _ _ _ H)
      as (a & b & c & Ia & Ib & Ic & Va & Vb & Vc & _).
    split; [lia |].
    intros k Hk.
    assert (Hcase : k = i * 3 + 0 \/ k = i * 3 + 1 \/ k = i * 3 + 2) by lia.
    destruct Hcase as [-> | [-> | ->]]; eauto.
  - intros [Hmax Hreads].
    destruct (Hreads (3 * i)) as (a & p0 & Ia & Va); [lia |].
    destruct (Hreads (3 * i + 1)) as (b & p1 & Ib & Vb); [lia |].
    destruct (Hreads (3 * i + 2)) as (c & p2 & Ic & Vc); [lia |].
    destruct (load_in_range vectors 0) as [p3 V0].
    { apply load_Some_range in Va. lia. }
    exists (mk_tetrahedron p0 p1 p2 p3).
    apply face_tetrahedron_Some with (a := a) (b := b) (c := c); assumption.
Qed.

Lemma faces_loop_defined_iff (vectors : list vector3d) (vector_indices : list Z)
    (n : nat) :
  forall (i : Z) (volume : double),
    0 <= i ->
    (exists v, faces_loop n i vectors vector_indices volume = Some v) <->
    ((n = O \/ 3 * (i + Z.of_nat n) - 1 <= INT_MAX)
     /\ forall k : Z, 3 * i <= k < 3 * (i + Z.of_nat n) ->
          exists (index : Z) (v : vector3d),
            load vector_indices k = Some index /\ load vectors index = Some v).
Proof.
  induction n as [| n IH]; intros i volume Hi.
  - cbn [faces_loop]. split.
    + intros _. split; [left; reflexivity |]. intros k Hk. lia.
    + intros _. exists volume. reflexivity.
  - cbn [faces_loop]. rewrite Nat2Z.inj_succ. split.
    + intros [v H]. bind_inv H.
      assert (Hface : exists tet, face_tetrahedron vectors vector_indices i = Some tet)
        by (eexists; exact E).
      apply (face_tetrahedron_defined_iff _ _ _ Hi) in Hface.
      destruct Hface as [Hmax Hreads].
      assert (Hrest : exists v, faces_loop n (i + 1) vectors vector_indices
                (volume + tetrahedron_volume t)%D = Some v)
        by (eexists; exact H).
      apply IH in Hrest; [| lia].
      destruct Hrest as [Hmax' Hreads'].
      split.
      * right. destruct Hmax' as [-> | Hmax']; cbn [Z.of_nat]; lia.
      * intros k Hk.
        destruct (Z.lt_ge_cases k (3 * i + 3)) as [Hlt | Hge].
        -- apply Hreads. lia.
        -- apply Hreads'. lia.
    + intros [Hmax Hreads].
      destruct Hmax as [Hmax | Hmax]; [discriminate |].
      assert (Hface : exists tet, face_tetrahedron vectors vector_indices i = Some tet).
      { apply (face_tetrahedron_defined_iff _ _ _ Hi). split; [lia |].
        intros k Hk. apply Hreads. lia. }
      destruct Hface as [tet Htet]. rewrite Htet. cbn [bind].
      apply IH; [lia |]. split.
      * right. lia.
      * intros k Hk. apply Hreads. lia.
Qed.

(** X1. For a face count [n >= 0], [calculate_volume] is defined exactly when
    the flat positions below [3 * n] fit in an [int] and every one of them
    holds an index that lies inside the vertex array; it then returns a
    volume, and otherwise reads outside an array or overflows. *)
Theorem calculate_volume_defined_iff (num_vertices : Z)
    (vectors : list vector3d) (num_trfaces : Z) (vector_indices : list Z) :
  0 <= num_trfaces ->
  (exists volume,
     calculate_volume num_vertices vectors num_trfaces vector_indices
     = Some volume) <->
  (3 * num_trfaces - 1 <= INT_MAX
   /\ reads_in_bounds vectors vector_indices num_trfaces).
Proof.
  intros Hn. unfold calculate_volume, reads_in_bounds.
  rewrite (faces_loop_defined_iff vectors vector_indices
             (Z.to_nat num_trfaces) 0 Double.zero) by lia.
  rewrite Z2Nat.id by exact Hn. cbn [Z.add].
  split.
  - intros [[H0 | Hmax] Hreads].
    + assert (num_trfaces = 0) by lia. subst num_trfaces.
      split; [unfold INT_MAX; lia | exact Hreads].
    + split; assumption.
  - intros [Hmax Hreads]. split; [right; exact Hmax | exact Hreads].
Qed.

Lemma calculate_volume_defined_iff_witness :
  0 <= 4
  /\ ((exists volume,
         calculate_volume 4 pyramid_vertices 4 pyramid_indices = Some volume)
      <-> (3 * 4 - 1 <= INT_MAX
           /\ reads_in_bounds pyramid_vertices pyramid_indices 4)).
Proof.
  split.
  - lia.
  - apply (calculate_volume_defined_iff 4 pyramid_vertices 4 pyramid_indices).
    lia.
Defined.

(** X2. A face count that is zero or negative makes [calculate_volume] return
    [0.0] without reading either array, whatever they hold. *)
Theorem calculate_volume_nonpositive_count (num_vertices : Z)
    (vectors : list vector3d) (num_trfaces : Z) (vector_indices : list Z) :
  num_trfaces <= 0 ->
  calculate_volume num_vertices vectors num_trfaces vector_indices
  = Some Double.zero.
Proof.
  intros Hn. unfold calculate_volume.
  replace (Z.to_nat num_trfaces) with O by lia.
  reflexivity.
Qed.

Lemma calculate_volume_nonpositive_count_witness :
  -3 <= 0
  /\ calculate_volume 8 [] (-3) [] = Some Double.zero.
Proof.
  split.
  - lia.
  - apply (calculate_volume_nonpositive_count 8 [] (-3) []). lia.
Defined.

(** ** The accumulator reads only what the faces name *)







Lemma load_firstn {A : Type} (arr : list A) (m k : Z) :
  k < m -> load (firstn (Z.to_nat m) arr) k = load arr k.
Proof.
  intros Hk. unfold load.
  destruct (Z.ltb_spec k 0) as [| Hk0]; [reflexivity |].
  rewrite nth_error_firstn.
  destruct (Nat.ltb_spec (Z.to_nat k) (Z.to_nat m)) as [| Hge];
    [reflexivity | lia].
Qed.

(** The scratch array of face [i] depends on the index array only through
    its three entries for that face. *)
Lemma face_tetrahedron_same_indices (vectors : list vector3d)
    (idx idx' : list Z) (i : Z) :
  (forall k : Z, 3 * i <= k < 3 * i + 3 -> load idx k = load idx' k) ->
  face_tetrahedron vectors idx i = face_tetrahedron vectors idx' i.
Proof.
  intros Hsame. unfold face_tetrahedron, copy_face.
  destruct (c_int (i * 3)) as [i3 |] eqn:E3; [| reflexivity].
  apply c_int_Some in E3. subst i3. cbn [bind].
  destruct (c_int (i * 3 + 0)) as [z0 |] eqn:E0; [| reflexivity].
  apply c_int_Some in E0. subst z0. cbn [bind].
  rewrite (Hsame (i * 3 + 0)) by lia.
  destruct (load idx' (i * 3 + 0)) as [a |]; [| reflexivity]. cbn [bind].
  destruct (load vectors a) as [p0 |]; [| reflexivity].
  cbn [bind memcpy_slot].
  destruct (c_int (i * 3 + (0 + 1))) as [z1 |] eqn:E1; [| reflexivity].
  apply c_int_Some in E1. subst z1. cbn [bind].
  rewrite (Hsame (i * 3 + (0 + 1))) by lia.
  destruct (load idx' (i * 3 + (0 + 1))) as [b |]; [| reflexivity].
  cbn [bind].
  destruct (load vectors b) as [p1 |]; [| reflexivity].
  change (0 + 1) with 1. cbn [bind memcpy_slot].
  destruct (c_int (i * 3 + (1 + 1))) as [z2 |] eqn:E2; [| reflexivity].
  apply c_int_Some in E2. subst z2. cbn [bind].
  rewrite (Hsame (i * 3 + (1 + 1))) by lia.
  reflexivity.
Qed.

Lemma faces_loop_same_indices (vectors : list vector3d) (idx idx' : list Z)
    (n : nat) :
  forall (i : Z) (volume : double),
    (forall k : Z, 3 * i <= k < 3 * (i + Z.of_nat n) ->
       load idx k = load idx' k) ->
    faces_loop n i vectors idx volume = faces_loop n i vectors idx' volume.
Proof.
  induction n as [| n IH]; intros i volume Hsame.
  - reflexivity.
  - cbn [faces_loop]. rewrite Nat2Z.inj_succ in Hsame.
    rewrite (face_tetrahedron_same_indices vectors idx idx' i)
      by (intros k Hk; apply Hsame; lia).
    destruct (face_tetrahedron vectors idx' i) as [tet |]; [| reflexivity].
    cbn [bind]. apply IH. intros k Hk. apply Hsame. lia.
Qed.

(** X4. [calculate_volume] depends on the index array only through its first
    [3 * num_trfaces] entries: cutting the array to that length changes
    neither the volume returned nor whether the call is defined. *)
Theorem calculate_volume_index_prefix (num_vertices : Z)
    (vectors : list vector3d) (num_trfaces : Z) (vector_indices : list Z) :
  calculate_volume num_vertices vectors num_trfaces
    (firstn (Z.to_nat (3 * num_trfaces)) vector_indices)
  = calculate_volume num_vertices vectors num_trfaces vector_indices.
Proof.
  unfold calculate_volume.
  apply faces_loop_same_indices.
  intros k Hk. apply load_firstn. lia.
Qed.

(** ** One face more *)

Lemma faces_loop_last (vectors : list vector3d) (vector_indices : list Z)
    (n : nat) :
  forall (i : Z) (volume : double),
    faces_loop (S n) i vectors vector_indices volume =
      (v <- faces_loop n i vectors vector_indices volume ;;
       tet <- face_tetrahedron vectors vector_indices (i + Z.of_nat n) ;;
       Some (v + tetrahedron_volume tet)%D).
Proof.
  induction n as [| n IH]; intros i volume.
  - cbn [faces_loop bind Z.of_nat]. rewrite Z.add_0_r.
    destruct (face_tetrahedron vectors vector_indices i); reflexivity.
  - change (faces_loop (S (S n)) i vectors vector_indices volume)
      with (tet <- face_tetrahedron vectors vector_indices i ;;
            faces_loop (S n) (i + 1) vectors vector_indices
              (volume + tetrahedron_volume tet)%D).
    change (faces_loop (S n) i vectors vector_indices volume)
      with (tet <- face_tetrahedron vectors vector_indices i ;;
            faces_loop n (i + 1) vectors vector_indices
              (volume + tetrahedron_volume tet)%D).
    destruct (face_tetrahedron vectors vector_indices i) as [tet |];
      [| reflexivity].
    cbn [bind]. rewrite IH.
    replace (i + 1 + Z.of_nat n) with (i + Z.of_nat (S n)) by lia.
    reflexivity.
Qed.

(** X5. One face more adds one term: for [n >= 0], [calculate_volume] for
    [n + 1] faces is its result for the first [n] faces plus
    [tetrahedron_volume] of the scratch array of face number [n], and is
    undefined when either of the two is. *)
Theorem calculate_volume_one_more_face (num_vertices : Z)
    (vectors : list vector3d) (n : Z) (vector_indices : list Z) :
  0 <= n ->
  calculate_volume num_vertices vectors (n + 1) vector_indices =
    (volume <- calculate_volume num_vertices vectors n vector_indices ;;
     tet <- face_tetrahedron vectors vector_indices n ;;
     Some (volume + tetrahedron_volume tet)%D).
Proof.
  intros Hn. unfold calculate_volume.
  replace (Z.to_nat (n + 1)) with (S (Z.to_nat n)) by lia.
  rewrite faces_loop_last.
  rewrite Z.add_0_l, Z2Nat.id by exact Hn.
  reflexivity.
Qed.

Lemma calculate_volume_one_more_face_witness :
  0 <= 3
  /\ calculate_volume 4 pyramid_vertices (3 + 1) pyramid_indices =
       (volume <- calculate_volume 4 pyramid_vertices 3 pyramid_indices ;;
        tet <- face_tetrahedron pyramid_vertices pyramid_indices 3 ;;
        Some (volume + tetrahedron_volume tet)%D).
Proof.
  split.
  - lia.
  - apply (calculate_volume_one_more_face 4 pyramid_vertices 3 pyramid_indices).
    lia.
Defined.

(** ** Reversing the winding of every face *)

Lemma add_face_flip (vertices : list vector3d) (r r' : option double)
    (f : face) :
  negated_result r r' ->
  negated_result (add_face vertices r f) (add_face vertices r' (flip_face f)).
Proof.
  destruct f as [[i j] k]. unfold add_face, flip_face.
  destruct r as [v |], r' as [v' |]; cbn [negated_result bind];
    intros Hneg; try contradiction; [| exact I].
  destruct (load vertices i) as [p0 |]; cbn [bind];
    [| destruct (load vertices k), (load vertices j); exact I].
  destruct (load vertices j) as [p1 |], (load vertices k) as [p2 |];
    cbn [bind]; try exact I.
  destruct (load vertices 0) as [p3 |]; cbn [bind negated_result];
    [| exact I].
  apply add_negated; [exact Hneg |].
  apply (tetrahedron_volume_swap12_negated (mk_tetrahedron p0 p1 p2 p3)).
Qed.

Lemma fold_add_face_flip (vertices : list vector3d) (faces : list face) :
  forall r r' : option double,
    negated_result r r' ->
    negated_result (fold_left (add_face vertices) faces r)
      (fold_left (add_face vertices) (map flip_face faces) r').
Proof.
  induction faces as [| f faces IH]; intros r r' Hneg.
  - exact Hneg.
  - cbn [map fold_left]. apply IH. apply add_face_flip. exact Hneg.
Qed.

Lemma faces_loop_from_start (vertices : list vector3d) (faces : list face) :
  3 * Z.of_nat (length faces) <= INT_MAX ->
  faces_loop (length faces) 0 vertices (flatten_faces faces) Double.zero
  = fold_left (add_face vertices) faces (Some Double.zero).
Proof.
  intros Hmax.
  apply (faces_loop_flatten vertices faces [] 0 Double.zero).
  - reflexivity.
  - lia.
Qed.

(** X6. Reversing the winding of every face, by exchanging its last two
    indices, negates the volume that [calculate_volume] returns: the two
    calls are undefined together, and otherwise the second volume is the
    negation of the first, or both are zeros. *)
Theorem calculate_volume_flipped_faces (num_vertices : Z)
    (vertices : list vector3d) (faces : list face) :
  3 * Z.of_nat (length faces) <= INT_MAX ->
  negated_result
    (calculate_volume num_vertices vertices (Z.of_nat (length faces))
       (flatten_faces faces))
    (calculate_volume num_vertices vertices (Z.of_nat (length faces))
       (flatten_faces (map flip_face faces))).
Proof.
  intros Hmax. unfold calculate_volume. rewrite Nat2Z.id.
  rewrite (faces_loop_from_start vertices faces Hmax).
  rewrite <- (length_map flip_face faces) at 1.
  rewrite (faces_loop_from_start vertices (map flip_face faces))
    by (rewrite length_map; exact Hmax).
  apply fold_add_face_flip.
  right. split; reflexivity.
Qed.

Lemma calculate_volume_flipped_faces_witness :
  3 * Z.of_nat (length pyramid_faces) <= INT_MAX
  /\ negated_result
       (calculate_volume 4 pyramid_vertices (Z.of_nat (length pyramid_faces))
          (flatten_faces pyramid_faces))
       (calculate_volume 4 pyramid_vertices (Z.of_nat (length pyramid_faces))
          (flatten_faces (map flip_face pyramid_faces))).
Proof.
  split.
  - vm_compute. discriminate.
  - apply (calculate_volume_flipped_faces 4 pyramid_vertices pyramid_faces).
    vm_compute. discriminate.
Defined.

(** ** A face with a repeated vertex *)

(** X7. A face whose second and third index are the same vertex contributes
    a zero: when the scratch array of a face holds the same point in slots 1
    and 2 and nothing overflows there, [tetrahedron_volume] of it is a zero,
    equal to [0.0]. *)
Theorem repeated_vertex_face_contributes_zero (vectors : list vector3d)
    (vector_indices : list Z) (i index : Z) (tet : tetrahedron) :
  face_tetrahedron vectors vector_indices i = Some tet ->
  load vector_indices (i * 3 + 1) = Some index ->
  load vector_indices (i * 3 + 2) = Some index ->
  no_overflow tet = true ->
  Double.is_zero (tetrahedron_volume tet) = true
  /\ Double.eqb (tetrahedron_volume tet) Double.zero = true.
Proof.
  intros Hface I1 I2 Hno.
  destruct (face_tetrahedron_inv _ _ _ _ Hface)
    as (a & b & c & _ & Ib & Ic & _ & Vb & Vc & _).
  assert (Heq : t1 tet = t2 tet) by congruence.
  assert (Hz : Double.is_zero (tetrahedron_volume tet) = true).
  { rewrite volume_of_edges.
    apply no_overflow_parts in Hno. destruct Hno as (Ha & _ & _ & Hk).
    apply finite_vector_components in Ha. destruct Ha as (Ax & Ay & Az).
    apply finite_vector_components in Hk. revert Hk.
    unfold cofactors, edge_c, edge_b. rewrite <- Heq.
    cbn [vX vY vZ vsub]. intros (Kx & Ky & Kz).
    rewrite (mul_comm (vZ (t1 tet) - vZ (t3 tet))%D
                      (vY (t1 tet) - vY (t3 tet))%D) in Kx |- *.
    rewrite (mul_comm (vZ (t1 tet) - vZ (t3 tet))%D
                      (vX (t1 tet) - vX (t3 tet))%D) in Ky |- *.
    rewrite (mul_comm (vX (t1 tet) - vX (t3 tet))%D
                      (vY (t1 tet) - vY (t3 tet))%D) in Kz |- *.
    rewrite (sub_self_finite _ Kx), (sub_self_finite _ Ky),
      (sub_self_finite _ Kz).
    apply volume_zero_sum; apply mul_zero_r; try assumption; reflexivity. }
  split; [exact Hz | apply eqb_zero; exact Hz].
Qed.

Lemma repeated_vertex_face_contributes_zero_witness :
  let tet := mk_tetrahedron (vec 1 1 1) (vec 0 1 0) (vec 0 1 0) (vec 0 0 0) in
  face_tetrahedron pyramid_vertices [3; 2; 2] 0 = Some tet
  /\ no_overflow tet = true
  /\ Double.is_zero (tetrahedron_volume tet) = true
  /\ Double.eqb (tetrahedron_volume tet) Double.zero = true.
Proof.
  intros tet.
  split; [reflexivity |].
  split; [reflexivity |].
  apply (repeated_vertex_face_contributes_zero pyramid_vertices [3; 2; 2] 0 2 tet);
    reflexivity.
Defined.

(** ** Infinities and NaN propagate *)

Lemma add_nonfinite_l (x y : double) :
  Double.is_finite x = false -> Double.is_finite (x + y)%D = false.
Proof.
  destruct x as [sx | [] | | sx mx ex]; try discriminate; intros _;
    destruct y as [sy | [] | | sy my ey]; reflexivity.
Qed.

Lemma add_nonfinite_r (x y : double) :
  Double.is_finite y = false -> Double.is_finite (x + y)%D = false.
Proof.
  destruct y as [sy | [] | | sy my ey]; try discriminate; intros _;
    destruct x as [sx | [] | | sx mx ex]; reflexivity.
Qed.

Lemma sub_nonfinite_l (x y : double) :
  Double.is_finite x = false -> Double.is_finite (x - y)%D = false.
Proof.
  destruct x as [sx | [] | | sx mx ex]; try discriminate; intros _;
    destruct y as [sy | [] | | sy my ey]; reflexivity.
Qed.

Lemma sub_nonfinite_r (x y : double) :
  Double.is_finite y = false -> Double.is_finite (x - y)%D = false.
Proof.
  destruct y as [sy | [] | | sy my ey]; try discriminate; intros _;
    destruct x as [[] | [] | | sx mx ex]; reflexivity.
Qed.

Lemma mul_nonfinite_l (x y : double) :
  Double.is_finite x = false -> Double.is_finite (x * y)%D = false.
Proof.
  destruct x as [sx | sx | | sx mx ex]; try discriminate; intros _;
    destruct y as [sy | sy | | sy my ey]; reflexivity.
Qed.

Lemma mul_nonfinite_r (x y : double) :
  Double.is_finite y = false -> Double.is_finite (x * y)%D = false.
Proof.
  intros Hy. rewrite mul_comm. apply mul_nonfinite_l. exact Hy.
Qed.

Lemma div_six_nonfinite (x : double) :
  Double.is_finite x = false ->
  Double.is_finite (x / Double.of_Z 6)%D = false.
Proof.
  destruct x as [sx | sx | | sx mx ex]; try discriminate; reflexivity.
Qed.

Lemma add_nan_l (x y : double) :
  Double.is_nan x = true -> Double.is_nan (x + y)%D = true.
Proof. destruct x; try discriminate; reflexivity. Qed.

Lemma add_nan_r (x y : double) :
  Double.is_nan y = true -> Double.is_nan (x + y)%D = true.
Proof.
  destruct y; try discriminate; intros _.
  destruct x as [sx | [] | | sx mx ex]; reflexivity.
Qed.

Lemma sub_nan_l (x y : double) :
  Double.is_nan x = true -> Double.is_nan (x - y)%D = true.
Proof. destruct x; try discriminate; reflexivity. Qed.

Lemma sub_nan_r (x y : double) :
  Double.is_nan y = true -> Double.is_nan (x - y)%D = true.
Proof.
  destruct y; try discriminate; intros _.
  destruct x as [sx | [] | | sx mx ex]; reflexivity.
Qed.

Lemma mul_nan_l (x y : double) :
  Double.is_nan x = true -> Double.is_nan (x * y)%D = true.
Proof. destruct x; try discriminate; reflexivity. Qed.

Lemma mul_nan_r (x y : double) :
  Double.is_nan y = true -> Double.is_nan (x * y)%D = true.
Proof.
  intros Hy. rewrite mul_comm. apply mul_nan_l. exact Hy.
Qed.

Lemma div_six_nan (x : double) :
  Double.is_nan x = true -> Double.is_nan (x / Double.of_Z 6)%D = true.
Proof. destruct x; try discriminate; reflexivity. Qed.

Create HintDb nonfinite.
Create HintDb nan.

#[local] Hint Resolve add_nonfinite_l add_nonfinite_r sub_nonfinite_l
  sub_nonfinite_r mul_nonfinite_l mul_nonfinite_r div_six_nonfinite : nonfinite.
#[local] Hint Resolve add_nan_l add_nan_r sub_nan_l sub_nan_r mul_nan_l
  mul_nan_r div_six_nan : nan.

(** X8. A finite result of [tetrahedron_volume] means that all twelve
    coordinates are finite: an infinite or NaN coordinate always yields an
    infinite or NaN volume, since each coordinate reaches the result through
    operations none of which turns an infinity or a NaN into a finite
    number. *)
Theorem finite_volume_has_finite_coordinates (tet : tetrahedron) :
  Double.is_finite (tetrahedron_volume tet) = true ->
  forallb Double.is_finite (coords tet) = true.
Proof.
  destruct tet as [[x0 y0 z0] [x1 y1 z1] [x2 y2 z2] [x3 y3 z3]].
  unfold tetrahedron_volume, coords.
  cbn [t0 t1 t2 t3 vX vY vZ forallb]. cbv zeta.
  intros Hfin.
  repeat match goal with
  | |- context [Double.is_finite ?x] =>
      is_var x;
      let E := fresh "E" in
      destruct (Double.is_finite x) eqn:E;
      [ cbn [andb]
      | exfalso;
        match type of Hfin with
        | Double.is_finite ?r = true =>
            assert (Hbad : Double.is_finite r = false)
              by auto 12 with nonfinite;
            congruence
        end ]
  end.
  reflexivity.
Qed.

(** X9. A NaN in any of the twelve coordinates makes [tetrahedron_volume]
    return NaN. *)
Theorem nan_coordinate_gives_nan_volume (tet : tetrahedron) :
  existsb Double.is_nan (coords tet) = true ->
  Double.is_nan (tetrahedron_volume tet) = true.
Proof.
  destruct tet as [[x0 y0 z0] [x1 y1 z1] [x2 y2 z2] [x3 y3 z3]].
  unfold tetrahedron_volume, coords.
  cbn [t0 t1 t2 t3 vX vY vZ existsb]. cbv zeta.
  intros Hnan.
  repeat match type of Hnan with
  | (Double.is_nan ?x || _) = true =>
      let E := fresh "E" in
      destruct (Double.is_nan x) eqn:E;
      [ clear Hnan; auto 12 with nan | cbn [orb] in Hnan ]
  end.
  discriminate Hnan.
Qed.

Lemma finite_volume_has_finite_coordinates_witness :
  Double.is_finite (tetrahedron_volume long_tetrahedron) = true
  /\ forallb Double.is_finite (coords long_tetrahedron) = true.
Proof.
  split.
  - vm_compute. reflexivity.
  - apply (finite_volume_has_finite_coordinates long_tetrahedron).
    vm_compute. reflexivity.
Defined.

Lemma nan_coordinate_gives_nan_volume_witness :
  let tet :=
    mk_tetrahedron (vec 1 0 0) (mk_vector3d (Double.of_Z 0) S754_nan (Double.of_Z 0))
      (vec 0 0 1) (vec 0 0 0) in
  existsb Double.is_nan (coords tet) = true
  /\ Double.is_nan (tetrahedron_volume tet) = true.
Proof.
  intros tet. split.
  - reflexivity.
  - apply (nan_coordinate_gives_nan_volume tet). reflexivity.
Defined.

(** ** A total never recovers *)

Section Sticky.

(** A class of doubles that addition cannot leave, such as the non-finite
    ones or the NaN. *)
Variable bad : double -> bool.
Hypothesis bad_add_l : forall x y, bad x = true -> bad (x + y)%D = true.
Hypothesis bad_add_r : forall x y, bad y = true -> bad (x + y)%D = true.

Variable vectors : list vector3d.
Variable vector_indices : list Z.

Lemma faces_loop_keeps_bad (n : nat) :
  forall (i : Z) (volume v : double),
    bad volume = true ->
    faces_loop n i vectors vector_indices volume = Some v ->
    bad v = true.
Proof.
  induction n as [| n IH]; intros i volume v Hbad H.
  - cbn [faces_loop] in H. injection H as <-. exact Hbad.
  - cbn [faces_loop] in H. bind_inv H.
    apply (IH _ _ _ (bad_add_l _ _ Hbad) H).
Qed.

Lemma faces_loop_bad_face (n : nat) :
  forall (i k : Z) (volume v : double) (tet : tetrahedron),
    faces_loop n i vectors vector_indices volume = Some v ->
    i <= k < i + Z.of_nat n ->
    face_tetrahedron vectors vector_indices k = Some tet ->
    bad (tetrahedron_volume tet) = true ->
    bad v = true.
Proof.
  induction n as [| n IH]; intros i k volume v tet H Hk Hface Hbad.
  - cbn [Z.of_nat] in Hk. lia.
  - cbn [faces_loop] in H. bind_inv H.
    destruct (Z.eq_dec k i) as [-> | Hne].
    + rewrite Hface in E. injection E as <-.
      apply (faces_loop_keeps_bad _ _ _ _ (bad_add_r _ _ Hbad) H).
    + apply (IH (i + 1) k _ v tet H); [lia | assumption | assumption].
Qed.

End Sticky.

Lemma negb_finite_add_l (x y : double) :
  negb (Double.is_finite x) = true -> negb (Double.is_finite (x + y)%D) = true.
Proof.
  intros H. apply negb_true_iff in H. apply negb_true_iff.
  apply add_nonfinite_l. exact H.
Qed.

Lemma negb_finite_add_r (x y : double) :
  negb (Double.is_finite y) = true -> negb (Double.is_finite (x + y)%D) = true.
Proof.
  intros H. apply negb_true_iff in H. apply negb_true_iff.
  apply add_nonfinite_r. exact H.
Qed.

(** X10. When [calculate_volume] returns a finite volume, every face below
    the face count contributed a finite [tetrahedron_volume]: an infinite or
    NaN contribution is never cancelled by later faces. *)
Theorem finite_total_has_finite_contributions (num_vertices : Z)
    (vectors : list vector3d) (num_trfaces : Z) (vector_indices : list Z)
    (volume : double) (i : Z) (tet : tetrahedron) :
  calculate_volume num_vertices vectors num_trfaces vector_indices
  = Some volume ->
  Double.is_finite volume = true ->
  0 <= i < num_trfaces ->
  face_tetrahedron vectors vector_indices i = Some tet ->
  Double.is_finite (tetrahedron_volume tet) = true.
Proof.
  unfold calculate_volume. intros Hvol Hfin Hi Hface.
  destruct (Double.is_finite (tetrahedron_volume tet)) eqn:E; [reflexivity |].
  assert (Hbad : negb (Double.is_finite volume) = true).
  { apply (faces_loop_bad_face (fun x => negb (Double.is_finite x))
             negb_finite_add_l negb_finite_add_r vectors vector_indices
             (Z.to_nat num_trfaces) 0 i Double.zero volume tet Hvol).
    - lia.
    - exact Hface.
    - rewrite E. reflexivity. }
  rewrite Hfin in Hbad. discriminate Hbad.
Qed.

Lemma finite_total_has_finite_contributions_witness :
  let tet := mk_tetrahedron (vec 1 0 0) (vec 0 1 0) (vec 1 1 1) (vec 0 0 0) in
  calculate_volume 4 pyramid_vertices 4 pyramid_indices
  = Some (Double.of_Z 1 / Double.of_Z 6)%D
  /\ 0 <= 3 < 4
  /\ face_tetrahedron pyramid_vertices pyramid_indices 3 = Some tet
  /\ Double.is_finite (tetrahedron_volume tet) = true.
Proof.
  intros tet.
  split; [vm_compute; reflexivity |].
  split; [lia |].
  split; [reflexivity |].
  apply (finite_total_has_finite_contributions 4 pyramid_vertices 4
           pyramid_indices (Double.of_Z 1 / Double.of_Z 6)%D 3 tet).
  - vm_compute. reflexivity.
  - vm_compute. reflexivity.
  - lia.
  - reflexivity.
Defined.

(** X11. One NaN contribution makes the whole result NaN: when
    [calculate_volume] returns a volume and [tetrahedron_volume] of some
    face below the face count is NaN, the volume returned is NaN. *)
Theorem nan_contribution_gives_nan_total (num_vertices : Z)
    (vectors : list vector3d) (num_trfaces : Z) (vector_indices : list Z)
    (volume : double) (i : Z) (tet : tetrahedron) :
  calculate_volume num_vertices vectors num_trfaces vector_indices
  = Some volume ->
  0 <= i < num_trfaces ->
  face_tetrahedron vectors vector_indices i = Some tet ->
  Double.is_nan (tetrahedron_volume tet) = true ->
  Double.is_nan volume = true.
Proof.
  unfold calculate_volume. intros Hvol Hi Hface Hnan.
  apply (faces_loop_bad_face Double.is_nan add_nan_l add_nan_r vectors
           vector_indices (Z.to_nat num_trfaces) 0 i Double.zero volume tet
           Hvol); [lia | exact Hface | exact Hnan].
Qed.

Lemma nan_contribution_gives_nan_total_witness :
  let tet :=
    mk_tetrahedron (vec 0 0 0) (vec 0 (2 ^ 600) 0) (vec 0 0 (2 ^ 600))
      (vec 0 0 0) in
  calculate_volume 3 huge_vertices 1 [0; 1; 2] = Some S754_nan
  /\ 0 <= 0 < 1
  /\ face_tetrahedron huge_vertices [0; 1; 2] 0 = Some tet
  /\ Double.is_nan (tetrahedron_volume tet) = true
  /\ Double.is_nan S754_nan = true.
Proof.
  intros tet.
  split; [vm_compute; reflexivity |].
  split; [lia |].
  split; [vm_compute; reflexivity |].
  split; [vm_compute; reflexivity |].
  apply (nan_contribution_gives_nan_total 3 huge_vertices 1 [0; 1; 2]
           S754_nan 0 tet).
  - vm_compute. reflexivity.
  - lia.
  - vm_compute. reflexivity.
  - vm_compute. reflexivity.
Defined.

(** ** A solid collapsed to one point *)

Lemma sub_self (x : double) :
  Double.is_finite x = true -> (x - x)%D = Double.zero.
Proof.
  destruct x as [[] | [] | | s m e]; try discriminate; try reflexivity.
  intros _. unfold Double.sub, SFsub. cbv zeta.
  match goal with
  | |- binary_normalize _ _ (?a - ?a) _ _ = _ =>
      replace (a - a) with 0 by (symmetry; apply Z.sub_diag)
  end.
  reflexivity.
Qed.

Lemma tetrahedron_volume_point (p : vector3d) :
  finite_vector p = true ->
  tetrahedron_volume (mk_tetrahedron p p p p) = Double.zero.
Proof.
  intros Hfin. apply finite_vector_components in Hfin.
  destruct Hfin as (Hx & Hy & Hz).
  unfold tetrahedron_volume. cbn [t0 t1 t2 t3]. cbv zeta.
  rewrite (sub_self _ Hx), (sub_self _ Hy), (sub_self _ Hz).
  reflexivity.
Qed.

Lemma load_In {A : Type} (arr : list A) (i : Z) (x : A) :
  load arr i = Some x -> In x arr.
Proof.
  unfold load. destruct (i <? 0); [discriminate |].
  apply nth_error_In.
Qed.

Lemma faces_loop_point (vectors : list vector3d) (vector_indices : list Z)
    (p : vector3d) (n : nat) :
  (forall v, In v vectors -> v = p) ->
  finite_vector p = true ->
  forall (i : Z) (volume : double),
    faces_loop n i vectors vector_indices Double.zero = Some volume ->
    volume = Double.zero.
Proof.
  intros Hall Hfin.
  induction n as [| n IH]; intros i volume H.
  - cbn [faces_loop] in H. injection H as <-. reflexivity.
  - cbn [faces_loop] in H. bind_inv H.
    destruct (face_tetrahedron_inv _ _ _ _ E)
      as (a & b & c & _ & _ & _ & Va & Vb & Vc & V0).
    apply load_In, Hall in Va, Vb, Vc, V0.
    destruct t as [p0 p1 p2 p3]. cbn [t0 t1 t2 t3] in *. subst p0 p1 p2 p3.
    rewrite (tetrahedron_volume_point p Hfin) in H.
    change (Double.zero + Double.zero)%D with Double.zero in H.
    apply (IH _ _ H).
Qed.

(** X12. A solid collapsed to a single point has volume exactly [0.0]: when
    every vertex of the array is the same point of finite coordinates, every
    volume that [calculate_volume] returns is [+0.0], whatever the faces. *)
Theorem calculate_volume_single_point (num_vertices : Z)
    (vectors : list vector3d) (num_trfaces : Z) (vector_indices : list Z)
    (p : vector3d) (volume : double) :
  (forall v, In v vectors -> v = p) ->
  finite_vector p = true ->
  calculate_volume num_vertices vectors num_trfaces vector_indices
  = Some volume ->
  volume = Double.zero.
Proof.
  intros Hall Hfin. unfold calculate_volume.
  apply (faces_loop_point vectors vector_indices p _ Hall Hfin).
Qed.

Lemma calculate_volume_single_point_witness :
  let p := vec 3 (-1) 2 in
  let vertices := [p; p; p; p; p; p; p; p] in
  let volume := S754_zero false in
  (forall v, In v vertices -> v = p)
  /\ finite_vector p = true
  /\ calculate_volume 8 vertices 12 qfhexahedron_indices = Some volume
  /\ volume = Double.zero.
Proof.
  intros p vertices volume.
  assert (Hall : forall v, In v vertices -> v = p).
  { intros v Hv. unfold vertices in Hv. cbn [In] in Hv.
    repeat (destruct Hv as [<- | Hv]; [reflexivity |]). contradiction. }
  assert (Hdef : calculate_volume 8 vertices 12 qfhexahedron_indices
                 = Some volume) by (vm_compute; reflexivity).
  split; [exact Hall |].
  split; [reflexivity |].
  split; [exact Hdef |].
  apply (calculate_volume_single_point 8 vertices 12 qfhexahedron_indices
           p volume Hall eq_refl Hdef).
Defined.

(** ** The two wrappers *)

Lemma calculate_volume_reads (num_vertices : Z) (vectors : list vector3d)
    (num_trfaces : Z) (vector_indices : list Z) (volume : double)
    (k index : Z) :
  calculate_volume num_vertices vectors num_trfaces vector_indices
  = Some volume ->
  0 <= k < 3 * num_trfaces ->
  load vector_indices k = Some index ->
  0 <= index < Z.of_nat (length vectors).
Proof.
  unfold calculate_volume. intros Hvol Hk Hload.
  assert (Hdef : exists v, faces_loop (Z.to_nat num_trfaces) 0 vectors
                   vector_indices Double.zero = Some v)
    by (eexists; exact Hvol).
  apply faces_loop_defined_iff in Hdef; [| lia].
  destruct Hdef as [_ Hreads].
  destruct (Hreads k) as (index' & v & Hload' & Hv); [lia |].
  rewrite Hload in Hload'. injection Hload' as <-.
  apply (load_Some_range _ _ _ Hv).
Qed.

(** X13. [calculate_volume_qfhexahedron] returns a volume exactly when its
    array holds at least eight vertices; on a shorter array it reads past
    the end. *)
Theorem calculate_volume_qfhexahedron_defined_iff (vertices : list vector3d) :
  (exists volume, calculate_volume_qfhexahedron vertices = Some volume)
  <-> (8 <= length vertices)%nat.
Proof.
  unfold calculate_volume_qfhexahedron. cbv zeta. split.
  - intros [volume H].
    assert (Hr : 0 <= 7 < Z.of_nat (length vertices)).
    { apply (calculate_volume_reads _ _ _ _ _ 11 7 H); [lia | reflexivity]. }
    lia.
  - intros Hlen.
    destruct vertices as [| v0 [| v1 [| v2 [| v3 [| v4 [| v5 [| v6 [| v7 rest]]]]]]]];
      cbn [length] in Hlen; try lia.
    eexists. reflexivity.
Qed.

(** X14. [calculate_volume_prism] returns a volume exactly when its array
    holds at least six vertices; on a shorter array it reads past the end. *)
Theorem calculate_volume_prism_defined_iff (vertices : list vector3d) :
  (exists volume, calculate_volume_prism vertices = Some volume)
  <-> (6 <= length vertices)%nat.
Proof.
  unfold calculate_volume_prism. cbv zeta. split.
  - intros [volume H].
    assert (Hr : 0 <= 5 < Z.of_nat (length vertices)).
    { apply (calculate_volume_reads _ _ _ _ _ 5 5 H); [lia | reflexivity]. }
    lia.
  - intros Hlen.
    destruct vertices as [| v0 [| v1 [| v2 [| v3 [| v4 [| v5 rest]]]]]];
      cbn [length] in Hlen; try lia.
    eexists. reflexivity.
Qed.

(** ** The self-tests *)

(** X15. [main] returns 0: none of the six assertions fails and no test reads
    outside an array.  The six volumes handed to [printf] are, in order,
    1/6.0, 8 - 2^-50, 16 - 2^-49, 16 - 2^-49, 48 and 24 - 2^-48. *)
Theorem main_returns_zero :
  main = Returns 0
           [ (Double.of_Z 1 / Double.of_Z 6)%D;
             S754_finite false 9007199254740991 (-50);
             S754_finite false 9007199254740991 (-49);
             S754_finite false 9007199254740991 (-49);
             Double.of_Z 48;
             S754_finite false 6755399441055743 (-48) ].
Proof. vm_compute. reflexivity. Qed.

(** ** The assertions bound the volume from above only *)

Lemma shr_1_nonneg (mrs : shr_record) :
  0 <= shr_m mrs -> 0 <= shr_m (shr_1 mrs).
Proof.
  destruct mrs as [m r s]. cbn [shr_m]. intros Hm.
  destruct m as [| [p | p |] | p]; cbn [shr_1 shr_m]; lia.
Qed.

Lemma iter_pos_shr_1_nonneg (p : positive) :
  forall mrs : shr_record,
    0 <= shr_m mrs -> 0 <= shr_m (iter_pos shr_1 p mrs).
Proof.
  induction p as [p IH | p IH |]; intros mrs Hm; cbn [iter_pos].
  - apply IH, IH, shr_1_nonneg, Hm.
  - apply IH, IH, Hm.
  - apply shr_1_nonneg, Hm.
Qed.

Lemma shr_fexp_nonneg (m e : Z) (l : location) :
  0 <= m -> 0 <= shr_m (fst (shr_fexp Double.prec Double.emax m e l)).
Proof.
  intros Hm. unfold shr_fexp, shr.
  assert (H0 : 0 <= shr_m (shr_record_of_loc m l))
    by (destruct l as [| []]; exact Hm).
  destruct (fexp Double.prec Double.emax (Zdigits2 m + e) - e) as [| p | p];
    cbn [fst]; try exact H0.
  apply iter_pos_shr_1_nonneg, H0.
Qed.

Lemma round_nearest_even_nonneg (m : Z) (l : location) :
  0 <= m -> 0 <= round_nearest_even m l.
Proof.
  intros Hm. destruct l as [| []]; cbn [round_nearest_even]; try exact Hm.
  - destruct (Z.even m); lia.
  - lia.
Qed.

(** Rounding a negative number never yields NaN or a positive number. *)
Lemma binary_round_aux_nonpositive (m e : Z) (l : location) :
  0 <= m ->
  nonpositive (binary_round_aux Double.prec Double.emax true m e l) = true.
Proof.
  intros Hm. unfold binary_round_aux.
  pose proof (shr_fexp_nonneg m e l Hm) as H1.
  destruct (shr_fexp Double.prec Double.emax m e l) as [mrs' e'].
  cbn [fst] in H1.
  pose proof (shr_fexp_nonneg _ e' loc_Exact
                (round_nearest_even_nonneg _ (loc_of_shr_record mrs') H1))
    as H2.
  destruct (shr_fexp Double.prec Double.emax _ e' loc_Exact) as [mrs'' e''].
  cbn [fst] in H2.
  destruct (shr_m mrs'') as [| p | p]; [reflexivity | | lia].
  destruct (e'' <=? Double.emax - Double.prec); reflexivity.
Qed.

Lemma sub_nonpositive (expected volume : double) :
  Double.ltb Double.zero expected = true ->
  nonpositive volume = true ->
  nonpositive (volume - expected)%D = true.
Proof.
  intros Hpos Hvol.
  destruct expected as [se | [] | | [] me ee]; try discriminate Hpos;
    destruct volume as [sv | [] | | [] mv ev]; try discriminate Hvol;
    try reflexivity.
  unfold Double.sub, SFsub. cbv zeta. cbn [cond_Zopp].
  match goal with
  | |- nonpositive (binary_normalize _ _ ?d ?e _) = true =>
      assert (Hd : d < 0) by lia;
      destruct d as [| p | p]; try lia; clear Hd;
      generalize e; intros ez
  end.
  cbn [binary_normalize]. unfold binary_round.
  destruct (shl_align p ez _) as [mz ez'].
  apply binary_round_aux_nonpositive. lia.
Qed.

Lemma EPSILON_value : EPSILON = S754_finite false 7378697629483821 (-66).
Proof. vm_compute. reflexivity. Qed.

Lemma nonpositive_below_EPSILON (x : double) :
  nonpositive x = true -> Double.ltb x EPSILON = true.
Proof.
  rewrite EPSILON_value.
  destruct x as [s | [] | | [] m e]; try discriminate; reflexivity.
Qed.

(** X16. The condition [volume - expected < EPSILON] that five of the tests
    assert bounds the volume from above only: for every expected value above
    zero it holds of every volume that is zero, negative or minus infinity,
    so a solid whose computed volume has the wrong sign passes. *)
Theorem assertion_accepts_nonpositive_volume (expected volume : double) :
  Double.ltb Double.zero expected = true ->
  nonpositive volume = true ->
  below_epsilon expected volume = true.
Proof.
  intros Hpos Hvol. unfold below_epsilon.
  apply nonpositive_below_EPSILON.
  apply sub_nonpositive; assumption.
Qed.

Lemma assertion_accepts_nonpositive_volume_witness :
  Double.ltb Double.zero (Double.of_Z 8) = true
  /\ nonpositive (Double.of_Z (-8)) = true
  /\ below_epsilon (Double.of_Z 8) (Double.of_Z (-8)) = true.
Proof.
  split; [vm_compute; reflexivity |].
  split; [vm_compute; reflexivity |].
  apply (assertion_accepts_nonpositive_volume (Double.of_Z 8) (Double.of_Z (-8)));
    vm_compute; reflexivity.
Defined.

(** ** Face counts beyond a third of [INT_MAX] *)

Lemma add_face_origin :
  add_face [vec 0 0 0] (Some Double.zero) (0, 0, 0) = Some Double.zero.
Proof. vm_compute. reflexivity. Qed.

Lemma fold_add_face_origin (n : nat) :
  fold_left (add_face [vec 0 0 0]) (repeat (0, 0, 0) n) (Some Double.zero)
  = Some Double.zero.
Proof.
  induction n as [| n IH].
  - reflexivity.
  - cbn [repeat fold_left]. rewrite add_face_origin. exact IH.
Qed.

Lemma length_many_faces : Z.of_nat (length many_faces) = 715827883.
Proof.
  unfold many_faces. rewrite repeat_length. apply Z2Nat.id. lia.
Qed.

(** With more faces than a third of [INT_MAX] the index expression of the
    last face overflows. *)
Lemma calculate_volume_beyond_int (vertices : list vector3d)
    (faces : list face) :
  INT_MAX < 3 * Z.of_nat (length faces) - 1 ->
  calculate_volume 1 vertices (Z.of_nat (length faces)) (flatten_faces faces)
  = None.
Proof.
  intros Hbig.
  destruct (calculate_volume 1 vertices (Z.of_nat (length faces))
              (flatten_faces faces)) as [v |] eqn:E; [| reflexivity].
  exfalso. unfold calculate_volume in E. rewrite Nat2Z.id in E.
  assert (Hdef : exists v', faces_loop (length faces) 0 vertices
                   (flatten_faces faces) Double.zero = Some v')
    by (eexists; exact E).
  apply faces_loop_defined_iff in Hdef; [| lia].
  destruct Hdef as [[H0 | Hmax] _].
  - rewrite H0 in Hbig. unfold INT_MAX in Hbig. cbn [Z.of_nat] in Hbig. lia.
  - lia.
Qed.

(** C1, as stated, fails for a face list that an [int] count can still
    describe: with 715827883 faces the last face has [i = 715827882], the
    index expression [(i * 3) + 2] exceeds [INT_MAX] and the call is
    undefined, while the total of the specification is [0.0] for the
    one-vertex array and the faces (0, 0, 0). *)
Lemma calculate_volume_index_overflow :
  Z.of_nat (length many_faces) <= INT_MAX
  /\ calculate_volume 1 [vec 0 0 0] (Z.of_nat (length many_faces))
       (flatten_faces many_faces) = None
  /\ polyhedronVolume [vec 0 0 0] many_faces = Some Double.zero
  /\ calculate_volume 1 [vec 0 0 0] (Z.of_nat (length many_faces))
       (flatten_faces many_faces)
     <> polyhedronVolume [vec 0 0 0] many_faces.
Proof.
  assert (Hnone : calculate_volume 1 [vec 0 0 0] (Z.of_nat (length many_faces))
                    (flatten_faces many_faces) = None).
  { apply calculate_volume_beyond_int.
    rewrite length_many_faces. unfold INT_MAX. lia. }
  assert (Hspec : polyhedronVolume [vec 0 0 0] many_faces = Some Double.zero)
    by (exact (fold_add_face_origin (Z.to_nat 715827883))).
  split; [rewrite length_many_faces; unfold INT_MAX; lia |].
  split; [exact Hnone |].
  split; [exact Hspec |].
  rewrite Hnone, Hspec. discriminate.
Qed.
